(** * Urban mobility pipeline: a shallow embedding of the core functions

    Source files embedded here:
    - [src/urban_mobility/pipeline.py]: [TransportType.from_osm_tags],
      [TransportStop.from_osm_element], [TransportStop._extract_routes],
      [UrbanMobilityPipeline.fetch_transport_stops], [calculate_metrics],
      [get_statistics];
    - [src/urban_mobility/dashboard.py] and
      [src/urban_mobility/dashboard_v5_backup.py]: [generate_route_polyline]
      and [simulate_vehicle_position].

    Conventions of the embedding.
    - A Python [str] is a [string] of ASCII characters.
    - A Python [int] is a [Z].
    - A Python [float] is an exact rational in lowest terms ([Qc]), so that
      Python's [==] on numbers is Leibniz equality.  Rounding, infinities
      and NaN are outside the model.
    - [x ** 0.5] has no exact rational value: the functions that compute it
      take the root as a parameter [pow_half], and the examples realise it
      by the binary64 root [sqrt_binary64].
    - A Python [dict] whose iteration order is observed (the OSM tags) is an
      association list in insertion order; a dict that is only looked up is
      a [gmap].
    - A Python call that may raise returns a [result]. *)

From Stdlib Require Import ZArith QArith Qcanon Qround Lqa Lia List Ascii String Bool.
From stdpp Require Import base decidable option list strings numbers gmap pretty.

Local Open Scope string_scope.
Local Open Scope list_scope.
Local Open Scope Z_scope.

(** ** Python exceptions and results *)

(** The exception classes that the embedded code can meet.  [Timeout],
    [ConnectionError], [HTTPError] and [JSONDecodeError] are classes of the
    [requests] library (setup.py pins [requests>=2.31.0]); the others are
    Python built-ins. *)
Inductive exn : Type :=
  | Timeout
  | ConnectionError
  | HTTPError
  | JSONDecodeError
  | KeyError (key : string)
  | IndexError
  | ValueError
  | AttributeError
  | ZeroDivisionError.

Global Instance exn_eq_dec : EqDecision exn.
Proof. solve_decision. Defined.

Inductive result (A : Type) : Type :=
  | Return (a : A)
  | Raise (e : exn).
Arguments Return {A} a.
Arguments Raise {A} e.

Definition bind {A B : Type} (m : result A) (k : A -> result B) : result B :=
  match m with
  | Return a => k a
  | Raise e => Raise e
  end.

Notation "'let!' x ':=' m 'in' k" := (bind m (fun x => k))
  (at level 10, x name, m at level 100, k at level 200).

(** ** Python string primitives *)

Module PyStr.

(** [c.lower()] on one ASCII character. *)
Definition lower_ascii (c : ascii) : ascii :=
  let n := nat_of_ascii c in
  if (65 <=? n)%nat && (n <=? 90)%nat then ascii_of_nat (n + 32) else c.

(** [s.lower()]. *)
Fixpoint lower (s : string) : string :=
  match s with
  | EmptyString => EmptyString
  | String c s' => String (lower_ascii c) (lower s')
  end.

(** [sub in s]: substring test. *)
Fixpoint contains (sub s : string) : bool :=
  if String.prefix sub s then true
  else match s with
       | EmptyString => false
       | String _ s' => contains sub s'
       end.

(** [s.split(sep)] for a one-character separator: always at least one
    segment, empty segments kept. *)
Fixpoint split (sep : ascii) (s : string) : list string :=
  match s with
  | EmptyString => [EmptyString]
  | String c s' =>
      if Ascii.eqb c sep then EmptyString :: split sep s'
      else match split sep s' with
           | [] => [String c EmptyString]
           | w :: ws => String c w :: ws
           end
  end.

(** [c.isspace()] on the ASCII range: TAB, LF, VT, FF, CR, FS, GS, RS, US
    and the space. *)
Definition isspace (c : ascii) : bool :=
  let n := nat_of_ascii c in
  ((9 <=? n)%nat && (n <=? 13)%nat) || ((28 <=? n)%nat && (n <=? 32)%nat).

Fixpoint lstrip (s : string) : string :=
  match s with
  | EmptyString => EmptyString
  | String c s' => if isspace c then lstrip s' else s
  end.

Fixpoint rstrip (s : string) : string :=
  match s with
  | EmptyString => EmptyString
  | String c s' =>
      match rstrip s' with
      | EmptyString => if isspace c then EmptyString else String c EmptyString
      | r => String c r
      end
  end.

(** [s.strip()]. *)
Definition strip (s : string) : string := rstrip (lstrip s).

(** Truth value of a string: [bool(s)] is [False] exactly for the empty
    string. *)
Definition truthy (s : string) : bool :=
  match s with
  | EmptyString => false
  | String _ _ => true
  end.

(** [c.isdigit()] on the ASCII range: the decimal digits. *)
Definition isdigit_ascii (c : ascii) : bool :=
  let n := nat_of_ascii c in
  (48 <=? n)%nat && (n <=? 57)%nat.

Fixpoint all_digits (s : string) : bool :=
  match s with
  | EmptyString => true
  | String c s' => isdigit_ascii c && all_digits s'
  end.

(** [s.isdigit()]: at least one character, and every character a digit. *)
Definition isdigit (s : string) : bool := truthy s && all_digits s.

End PyStr.

(** ** OSM tags: a [Dict[str, str]] in insertion order *)

Definition Tags : Type := list (string * string).

(** [tags.get(key)]. *)
Fixpoint tags_get (tags : Tags) (key : string) : option string :=
  match tags with
  | [] => None
  | (k, v) :: rest => if String.eqb k key then Some v else tags_get rest key
  end.

(** [tags.get(key, dflt)]. *)
Definition tags_get_default (tags : Tags) (key dflt : string) : string :=
  match tags_get tags key with
  | Some v => v
  | None => dflt
  end.

(** [x == 'lit'] where [x] is the result of a [dict.get]: [None] equals no
    string. *)
Definition opt_eqb (x : option string) (lit : string) : bool :=
  match x with
  | Some v => String.eqb v lit
  | None => false
  end.

(** ** pipeline.py: [TransportType] *)

Inductive TransportType : Type :=
  | BUS | SUBWAY | TRAM | TRAIN | FERRY | LIGHT_RAIL.

Global Instance TransportType_eq_dec : EqDecision TransportType.
Proof. solve_decision. Defined.

(** [TransportType.value]. *)
Definition TransportType_value (t : TransportType) : string :=
  match t with
  | BUS => "bus"
  | SUBWAY => "subway"
  | TRAM => "tram"
  | TRAIN => "train"
  | FERRY => "ferry"
  | LIGHT_RAIL => "light_rail"
  end.

(** [TransportType.from_osm_tags] (pipeline.py, lines 61-97). *)
Definition from_osm_tags (tags : Tags) : option TransportType :=
  if opt_eqb (tags_get tags "highway") "bus_stop" then Some BUS
  else
    let railway := tags_get tags "railway" in
    if opt_eqb railway "station" then Some SUBWAY
    else if opt_eqb railway "tram_stop" then Some TRAM
    else if opt_eqb railway "halt" then Some TRAIN
    else if opt_eqb (tags_get tags "amenity") "ferry_terminal" then Some FERRY
    else if opt_eqb (tags_get tags "public_transport") "stop_position"
            || opt_eqb (tags_get tags "public_transport") "platform"
    then
      if PyStr.contains "bus" (PyStr.lower (tags_get_default tags "bus" EmptyString))
      then Some BUS
      else if PyStr.contains "tram" (PyStr.lower (tags_get_default tags "tram" EmptyString))
      then Some TRAM
      else None
    else None.


(** ** pipeline.py: [TransportStop] *)

Record TransportStop : Type := mkTransportStop {
  osm_id : string;
  name : string;
  latitude : Qc;
  longitude : Qc;
  transport_type : TransportType;
  operator : option string;
  network : option string;
  routes : list string;
  ref : option string;
  wheelchair_accessible : bool;
  has_shelter : bool;
  has_bench : bool;
  has_tactile_paving : bool;
  metadata : Tags
}.

(** The dataclass's generated [__eq__] compares the tuples of all fields;
    every field is a value with decidable equality. *)
Global Instance TransportStop_eq_dec : EqDecision TransportStop.
Proof. solve_decision. Defined.

(** [x in l] for a list of strings. *)
Definition str_in (x : string) (l : list string) : bool :=
  existsb (String.eqb x) l.

(** [list(dict.fromkeys(l))]: each key is inserted when first seen; a key
    already present keeps its place. *)
Definition dict_fromkeys (l : list string) : list string :=
  fold_left (fun keys x => if str_in x keys then keys else keys ++ [x]) l [].

(** [l[:n]] for a non-negative literal [n]. *)
Definition slice_to {A : Type} (n : nat) (l : list A) : list A := firstn n l.

(** [TransportStop._extract_routes] (pipeline.py, lines 203-232).  The test
    ['lines' in tags] and the read [tags['lines']] are one lookup. *)
Definition _extract_routes (tags : Tags) : list string :=
  let routes := [] in
  let routes :=
    match tags_get tags "lines" with
    | Some v => routes ++ PyStr.split ";" v
    | None => routes
    end in
  let routes :=
    fold_left
      (fun routes kv =>
         let '(key, value) := kv in
         if PyStr.contains "route" (PyStr.lower key) && PyStr.truthy value
         then routes ++ [value] else routes)
      tags routes in
  let routes :=
    List.map PyStr.strip
      (List.filter (fun r => PyStr.truthy (PyStr.strip r)) routes) in
  slice_to 5 (dict_fromkeys routes).

(** A raw element of the Overpass response: a JSON object in which each of
    the keys the code reads may be absent. *)
Record Element : Type := mkElement {
  el_type : option string;
  el_id : option Z;
  el_lat : option Qc;
  el_lon : option Qc;
  el_tags : option Tags
}.

(** [element[key]]: a missing key raises [KeyError]. *)
Definition element_index {A : Type} (field : option A) (key : string) : result A :=
  match field with
  | Some v => Return v
  | None => Raise (KeyError key)
  end.

(** [TransportStop.from_osm_element] (pipeline.py, lines 163-201).  The
    keyword arguments of the constructor call are evaluated in the order
    written: [element['id']], then [element['lat']], then [element['lon']]. *)
Definition from_osm_element (element : Element) : result (option TransportStop) :=
  if negb (opt_eqb (el_type element) "node") then Return None
  else
    let tags := match el_tags element with Some t => t | None => [] end in
    match from_osm_tags tags with
    | None => Return None
    | Some transport_type =>
        let routes := _extract_routes tags in
        let! id := element_index (el_id element) "id" in
        let! lat := element_index (el_lat element) "lat" in
        let! lon := element_index (el_lon element) "lon" in
        Return (Some {|
          osm_id := pretty id;
          name := tags_get_default tags "name" "Unnamed Stop";
          latitude := lat;
          longitude := lon;
          transport_type := transport_type;
          operator := tags_get tags "operator";
          network := tags_get tags "network";
          routes := routes;
          ref := tags_get tags "ref";
          wheelchair_accessible := opt_eqb (tags_get tags "wheelchair") "yes";
          has_shelter := opt_eqb (tags_get tags "shelter") "yes";
          has_bench := opt_eqb (tags_get tags "bench") "yes";
          has_tactile_paving := opt_eqb (tags_get tags "tactile_paving") "yes";
          metadata := tags
        |})
    end.

(** ** pipeline.py: [UrbanMobilityPipeline] *)

(** [self.stats], created by [__init__]. *)
Record Stats : Type := mkStats {
  stops_processed : Z;
  stops_failed : Z;
  api_calls : Z;
  errors : list string
}.

Definition initial_stats : Stats :=
  {| stops_processed := 0; stops_failed := 0; api_calls := 0; errors := [] |}.

Definition incr_processed (st : Stats) : Stats :=
  {| stops_processed := stops_processed st + 1; stops_failed := stops_failed st;
     api_calls := api_calls st; errors := errors st |}.

Definition incr_failed (st : Stats) : Stats :=
  {| stops_processed := stops_processed st; stops_failed := stops_failed st + 1;
     api_calls := api_calls st; errors := errors st |}.

Definition incr_api_calls (st : Stats) : Stats :=
  {| stops_processed := stops_processed st; stops_failed := stops_failed st;
     api_calls := api_calls st + 1; errors := errors st |}.

Definition append_error (msg : string) (st : Stats) : Stats :=
  {| stops_processed := stops_processed st; stops_failed := stops_failed st;
     api_calls := api_calls st; errors := errors st ++ [msg] |}.

(** The element loop of [fetch_transport_stops] (lines 378-386).  The
    counters are fields of a shared object: what was added before an
    exception stays added. *)
Fixpoint parse_elements (elements : list Element) (stops : list TransportStop)
    (st : Stats) : result (list TransportStop) * Stats :=
  match elements with
  | [] => (Return stops, st)
  | element :: rest =>
      match from_osm_element element with
      | Raise e => (Raise e, st)
      | Return (Some stop) => parse_elements rest (stops ++ [stop]) (incr_processed st)
      | Return None => parse_elements rest stops (incr_failed st)
      end
  end.

(** What one HTTP round trip can give.  The classes raised are those of
    [requests] 2.31: [requests.post] raises what the transport meets
    ([Timeout], [ConnectionError], ...); [Response.raise_for_status] raises
    [HTTPError]; [Response.json] catches the decoder's error on a body that
    is not JSON and raises [requests.exceptions.JSONDecodeError] in its
    place; a JSON body that is not an object has no [get], so
    [data.get] raises [AttributeError]. *)
Inductive Response : Type :=
  | PostRaises (e : exn)
  | BadStatus
  | MalformedBody
  | JsonNotObject
  | JsonObject (elements : list Element).

(** [isinstance(e, requests.exceptions.Timeout)]. *)
Definition isinstance_Timeout (e : exn) : bool :=
  match e with
  | Timeout => true
  | _ => false
  end.

(** [isinstance(e, requests.exceptions.RequestException)].  In
    [requests/exceptions.py], [Timeout], [ConnectionError] and [HTTPError]
    derive from [RequestException], and so does [JSONDecodeError]:
    [class InvalidJSONError(RequestException)] and
    [class JSONDecodeError(InvalidJSONError, CompatJSONDecodeError)]. *)
Definition isinstance_RequestException (e : exn) : bool :=
  match e with
  | Timeout | ConnectionError | HTTPError | JSONDecodeError => true
  | _ => false
  end.

(** What the caller can observe of one call besides its result. *)
Inductive Event : Type :=
  | Post (attempt : nat)
  | Sleep (seconds : Z).

Global Instance Event_eq_dec : EqDecision Event.
Proof. solve_decision. Defined.

Definition is_Post (ev : Event) : bool :=
  match ev with
  | Post _ => true
  | Sleep _ => false
  end.

Definition max_retries : Z := 3.
Definition retry_delay : Z := 5.

(** The body of the [try] (lines 363-389). *)
Definition try_body (resp : Response) (st : Stats)
  : result (list TransportStop) * Stats :=
  match resp with
  | PostRaises e => (Raise e, st)
  | BadStatus => (Raise HTTPError, st)
  | MalformedBody => (Raise JSONDecodeError, st)
  | JsonNotObject => (Raise AttributeError, st)
  | JsonObject elements => parse_elements elements [] st
  end.

(** The loop [for attempt in range(max_retries)] with its two handlers
    (lines 361-405); [net attempt] is what the request of that attempt
    meets. *)
Fixpoint fetch_attempts (net : nat -> Response) (attempts : list nat)
    (st : Stats) (trace : list Event)
  : result (list TransportStop) * Stats * list Event :=
  match attempts with
  | [] => (Return [], st, trace)
  | attempt :: rest =>
      let trace := trace ++ [Post attempt] in
      match try_body (net attempt) st with
      | (Return stops, st) => (Return stops, st, trace)
      | (Raise e, st) =>
          if isinstance_Timeout e then
            if Z.of_nat attempt <? max_retries - 1
            then fetch_attempts net rest st (trace ++ [Sleep retry_delay])
            else (Raise e, st, trace)
          else if isinstance_RequestException e then
            if Z.of_nat attempt <? max_retries - 1
            then fetch_attempts net rest st (trace ++ [Sleep retry_delay])
            else (Raise e, st, trace)
          else (Raise e, st, trace)
      end
  end.

(** [UrbanMobilityPipeline.fetch_transport_stops] (lines 311-405).  The
    query built from [latitude], [longitude] and [radius] is what the
    network answers to. *)
Definition fetch_transport_stops (net : Qc -> Qc -> Z -> nat -> Response)
    (st : Stats) (latitude longitude : Qc) (radius : Z)
  : result (list TransportStop) * Stats * list Event :=
  let st := incr_api_calls st in
  fetch_attempts (net latitude longitude radius)
    (seq 0 (Z.to_nat max_retries)) st [].

(** ** Python numbers *)

(** [a / b] on two ints: true division. *)
Definition int_truediv (a b : Z) : result Qc :=
  if decide (b = 0) then Raise ZeroDivisionError
  else Return (Qc_of_Z a / Qc_of_Z b)%Qc.

(** [round(x)] to the nearest integer, ties to the even one. *)
Definition round_half_even (x : Qc) : Z :=
  let f := Qfloor x in
  let d := (x - Qc_of_Z f)%Qc in
  match (d ?= Q2Qc (1 # 2))%Qc with
  | Lt => f
  | Gt => f + 1
  | Eq => if Z.even f then f else f + 1
  end.

(** [round(x, 2)]. *)
Definition round2 (x : Qc) : Qc :=
  (Qc_of_Z (round_half_even (x * Qc_of_Z 100)) / Qc_of_Z 100)%Qc.

(** [sum(1 for s in stops if p(s))]. *)
Definition count_if {A : Type} (p : A -> bool) (l : list A) : Z :=
  Z.of_nat (length (List.filter p l)).

(** The result of [calculate_metrics]. *)
Record Metrics : Type := mkMetrics {
  total_stops : Z;
  by_type : gmap string Z;
  accessibility : gmap string Qc
}.

(** [x / total * 100] rounded to two decimals. *)
Definition pct (x total : Z) : result Qc :=
  let! q := int_truediv x total in
  Return (round2 (q * Qc_of_Z 100)%Qc).

(** [UrbanMobilityPipeline.calculate_metrics] (lines 407-457). *)
Definition calculate_metrics (stops : list TransportStop) : result Metrics :=
  match stops with
  | [] => Return {| total_stops := 0; by_type := ∅; accessibility := ∅ |}
  | _ :: _ =>
      let total := Z.of_nat (length stops) in
      let by_type :=
        fold_left
          (fun (by_type : gmap string Z) stop =>
             let type_name := TransportType_value (transport_type stop) in
             <[type_name := default 0 (by_type !! type_name) + 1]> by_type)
          stops ∅ in
      let wheelchair := count_if wheelchair_accessible stops in
      let shelter := count_if has_shelter stops in
      let bench := count_if has_bench stops in
      let tactile := count_if has_tactile_paving stops in
      let routes := count_if (fun s => negb (bool_decide (routes s = []))) stops in
      let! wheelchair_pct := pct wheelchair total in
      let! shelter_pct := pct shelter total in
      let! bench_pct := pct bench total in
      let! tactile_pct := pct tactile total in
      let! routes_pct := pct routes total in
      Return {|
        total_stops := total;
        by_type := by_type;
        accessibility :=
          <["wheelchair_accessible" := Qc_of_Z wheelchair]>
          (<["wheelchair_pct" := wheelchair_pct]>
          (<["with_shelter" := Qc_of_Z shelter]>
          (<["shelter_pct" := shelter_pct]>
          (<["with_bench" := Qc_of_Z bench]>
          (<["bench_pct" := bench_pct]>
          (<["with_tactile_paving" := Qc_of_Z tactile]>
          (<["tactile_pct" := tactile_pct]>
          (<["with_route_info" := Qc_of_Z routes]>
          (<["routes_pct" := routes_pct]> ∅)))))))))
      |}
  end.

(** The result of [get_statistics]: the counters and the success rate. *)
Record Statistics : Type := mkStatistics {
  stats : Stats;
  success_rate : Qc
}.

(** [UrbanMobilityPipeline.get_statistics] (lines 520-537). *)
Definition get_statistics (st : Stats) : result Statistics :=
  let! rate :=
    if stops_processed st + stops_failed st >? 0
    then int_truediv (stops_processed st) (stops_processed st + stops_failed st)
    else Return (Qc_of_Z 0) in
  Return {| stats := st; success_rate := rate |}.

(** [x % y] on floats, for the non-zero literal divisors of the code
    ([60] and [1.0]): the result has the sign of [y]. *)
Definition float_mod (x y : Qc) : Qc :=
  (x - Qc_of_Z (Qfloor (x / y)) * y)%Qc.

(** [int(x)]: truncation towards zero. *)
Definition py_int (x : Qc) : Z :=
  if decide (0 ≤ x)%Qc then Qfloor x else Qceiling x.

(** [random.randint(a, b)]: an integer [N] with [a <= N <= b], picked by
    the generator's next raw [draw]. *)
Definition randint (draw : Z) (a b : Z) : Z := a + draw mod (b - a + 1).

(** ** Python list primitives *)

(** [len(l)]. *)
Definition len {A : Type} (l : list A) : Z := Z.of_nat (length l).

(** [l[i]]: a negative index counts from the end; out of range raises. *)
Definition py_index {A : Type} (l : list A) (i : Z) : result A :=
  let j := if i <? 0 then i + len l else i in
  if (j <? 0) || (len l <=? j) then Raise IndexError
  else match l !! Z.to_nat j with
       | Some x => Return x
       | None => Raise IndexError
       end.

(** [min(l, key=key)]: the first element whose key is least; a later
    element replaces the current one only when its key is strictly less. *)
Definition py_min_by {A : Type} (key : A -> Qc) (l : list A) : result A :=
  match l with
  | [] => Raise ValueError
  | x :: rest =>
      Return (fold_left
                (fun best y => if decide (key y < key best)%Qc then y else best)
                rest x)
  end.

(** [l.remove(x)]: removes the first element equal to [x]; [ValueError]
    when there is none. *)
Fixpoint list_remove {A : Type} `{EqDecision A} (x : A) (l : list A)
  : result (list A) :=
  match l with
  | [] => Raise ValueError
  | y :: l' =>
      if decide (y = x) then Return l'
      else let! r := list_remove x l' in Return (y :: r)
  end.

(** The dictionary returned by [simulate_vehicle_position]. *)
Record Snapshot : Type := mkSnapshot {
  position : Qc * Qc;
  last_stop : string;
  current_stop : string;
  next_stop : string;
  status : string;
  eta : Z
}.

(** ** dashboard.py *)

Module Dashboard.
Section RoutePolyline.

(** [x ** 0.5] on a float: the square root as the platform computes it.
    The embedding does not fix it. *)
Variable pow_half : Qc -> Qc.

(** The [key] of the [min] call (lines 547-548), with [last] captured. *)
Definition distance_key (last s : TransportStop) : Qc :=
  pow_half ((latitude s - latitude last) ^ 2
            + (longitude s - longitude last) ^ 2)%Qc.

(** The [while remaining:] loop (lines 545-550).  [fuel] bounds the
    number of iterations; [None] means the bound was reached. *)
Fixpoint order_loop (fuel : nat) (sorted_stops remaining : list TransportStop)
  : option (result (list TransportStop)) :=
  match remaining with
  | [] => Some (Return sorted_stops)
  | _ :: _ =>
      match fuel with
      | O => None
      | S fuel =>
          match py_index sorted_stops (-1) with
          | Raise e => Some (Raise e)
          | Return last =>
              match py_min_by (distance_key last) remaining with
              | Raise e => Some (Raise e)
              | Return nearest =>
                  match list_remove nearest remaining with
                  | Raise e => Some (Raise e)
                  | Return remaining =>
                      order_loop fuel (sorted_stops ++ [nearest]) remaining
                  end
              end
          end
      end
  end.

(** [generate_route_polyline] (lines 536-552). *)
Definition generate_route_polyline (fuel : nat) (stops : list TransportStop)
    (route_name : string)
  : option (result (option (list (Qc * Qc) * list TransportStop))) :=
  let route_stops := List.filter (fun s => str_in route_name (routes s)) stops in
  if len route_stops <? 2 then Some (Return None)
  else
    match route_stops with
    | [] => Some (Raise IndexError)
    | first :: remaining =>
        match order_loop fuel [first] remaining with
        | None => None
        | Some (Raise e) => Some (Raise e)
        | Some (Return sorted_stops) =>
            Some (Return (Some
              (List.map (fun s => (latitude s, longitude s)) sorted_stops,
               sorted_stops)))
        end
    end.

End RoutePolyline.

(** The locals of [simulate_vehicle_position] (lines 560-571), as
    functions of its inputs; [now] is the value of [time.time()]. *)
Definition progress (now : Qc) (vehicle_id total_vehicles : Z) : result Qc :=
  let! q := int_truediv vehicle_id total_vehicles in
  Return (float_mod (q + float_mod now (Qc_of_Z 60) / Qc_of_Z 600) 1)%Qc.

Definition total_segments (route_points : list (Qc * Qc)) : Z :=
  len route_points - 1.

Definition current_segment (progress : Qc) (total_segments : Z) : Z :=
  let current_segment := py_int (progress * Qc_of_Z total_segments)%Qc in
  if current_segment >=? total_segments then total_segments - 1
  else current_segment.

Definition local_progress (progress : Qc) (total_segments current_segment : Z) : Qc :=
  (progress * Qc_of_Z total_segments - Qc_of_Z current_segment)%Qc.

(** [simulate_vehicle_position] (lines 555-600); [draw] is the raw value
    the random generator yields if it is asked. *)
Definition simulate_vehicle_position (now : Qc) (draw : Z)
    (route_points : list (Qc * Qc)) (route_stops : list TransportStop)
    (vehicle_id total_vehicles : Z) : result (option Snapshot) :=
  if bool_decide (route_points = []) || (len route_points <? 2) then Return None
  else
    let! progress := progress now vehicle_id total_vehicles in
    let total_segments := total_segments route_points in
    let current_segment := current_segment progress total_segments in
    let last_stop_idx := current_segment in
    let next_stop_idx := Z.min (current_segment + 1) (len route_stops - 1) in
    let! last_stop :=
      if last_stop_idx <? len route_stops
      then let! s := py_index route_stops last_stop_idx in Return (name s)
      else Return "Unknown" in
    let! next_stop :=
      if next_stop_idx <? len route_stops
      then let! s := py_index route_stops next_stop_idx in Return (name s)
      else Return "Terminal" in
    let local_progress := local_progress progress total_segments current_segment in
    let! p1 := py_index route_points current_segment in
    let! p2 := py_index route_points
                 (Z.min (current_segment + 1) (len route_points - 1)) in
    let lat := (p1.1 + (p2.1 - p1.1) * local_progress)%Qc in
    let lon := (p1.2 + (p2.2 - p1.2) * local_progress)%Qc in
    let '(current_stop, status, eta) :=
      if decide (local_progress < Q2Qc (1 # 10))%Qc
      then (last_stop, "At Stop", 0)
      else if decide (Q2Qc (9 # 10) < local_progress)%Qc
      then (next_stop, "Arriving", 1)
      else (last_stop, "In Transit", randint draw 2 8) in
    Return (Some {|
      position := (lat, lon);
      last_stop := last_stop;
      current_stop := current_stop;
      next_stop := next_stop;
      status := status;
      eta := eta
    |}).

(** [extract_route_name] (lines 526-533), on the route identifiers of a
    Stop, which are strings. *)
Definition extract_route_name (route_str : string) : string :=
  if negb (PyStr.truthy route_str) then "Unknown"
  else
    let route_str := PyStr.strip route_str in
    if PyStr.isdigit route_str then String.append "Line " route_str
    else route_str.

(** [routes_dict[route].append(stop)] on a [defaultdict(list)]: a key that
    is missing is created, after the keys there are. *)
Fixpoint defaultdict_append (routes_dict : list (string * list TransportStop))
    (route : string) (stop : TransportStop)
  : list (string * list TransportStop) :=
  match routes_dict with
  | [] => [(route, [stop])]
  | (k, v) :: rest =>
      if String.eqb k route then (k, v ++ [stop]) :: rest
      else (k, v) :: defaultdict_append rest route stop
  end.

(** The grouping loop of [create_persistent_map] (lines 628-632): the
    dictionary, in insertion order, from each route identifier to the
    stops that list it. *)
Definition routes_dict (stops : list TransportStop)
  : list (string * list TransportStop) :=
  fold_left
    (fun routes_dict stop =>
       if bool_decide (routes stop = []) then routes_dict
       else fold_left
              (fun routes_dict route => defaultdict_append routes_dict route stop)
              (routes stop) routes_dict)
    stops [].

End Dashboard.

(** ** dashboard_v5_backup.py *)

Module DashboardV5.
Section RoutePolyline.

Variable pow_half : Qc -> Qc.

(** The [key] of the [min] call (lines 599-600). *)
Definition distance_key (last s : TransportStop) : Qc :=
  pow_half ((latitude s - latitude last) ^ 2
            + (longitude s - longitude last) ^ 2)%Qc.

(** The [while remaining:] loop (lines 597-602). *)
Fixpoint order_loop (fuel : nat) (sorted_stops remaining : list TransportStop)
  : option (result (list TransportStop)) :=
  match remaining with
  | [] => Some (Return sorted_stops)
  | _ :: _ =>
      match fuel with
      | O => None
      | S fuel =>
          match py_index sorted_stops (-1) with
          | Raise e => Some (Raise e)
          | Return last =>
              match py_min_by (distance_key last) remaining with
              | Raise e => Some (Raise e)
              | Return nearest =>
                  match list_remove nearest remaining with
                  | Raise e => Some (Raise e)
                  | Return remaining =>
                      order_loop fuel (sorted_stops ++ [nearest]) remaining
                  end
              end
          end
      end
  end.

(** [generate_route_polyline] (lines 587-604). *)
Definition generate_route_polyline (fuel : nat) (stops : list TransportStop)
    (route_name : string)
  : option (result (option (list (Qc * Qc) * list TransportStop))) :=
  let route_stops := List.filter (fun s => str_in route_name (routes s)) stops in
  if len route_stops <? 2 then Some (Return None)
  else
    match route_stops with
    | [] => Some (Raise IndexError)
    | first :: remaining =>
        match order_loop fuel [first] remaining with
        | None => None
        | Some (Raise e) => Some (Raise e)
        | Some (Return sorted_stops) =>
            Some (Return (Some
              (List.map (fun s => (latitude s, longitude s)) sorted_stops,
               sorted_stops)))
        end
    end.

End RoutePolyline.

(** The locals of [simulate_vehicle_position] (lines 613-627). *)
Definition progress (now : Qc) (vehicle_id total_vehicles : Z) : result Qc :=
  let! q := int_truediv vehicle_id total_vehicles in
  Return (float_mod (q + float_mod now (Qc_of_Z 60) / Qc_of_Z 600) 1)%Qc.

Definition total_segments (route_points : list (Qc * Qc)) : Z :=
  len route_points - 1.

Definition current_segment_float (progress : Qc) (total_segments : Z) : Qc :=
  (progress * Qc_of_Z total_segments)%Qc.

Definition current_segment (current_segment_float : Qc) (total_segments : Z) : Z :=
  let current_segment := py_int current_segment_float in
  if current_segment >=? total_segments then total_segments - 1
  else current_segment.

Definition local_progress (current_segment_float : Qc) (current_segment : Z) : Qc :=
  (current_segment_float - Qc_of_Z current_segment)%Qc.

(** [simulate_vehicle_position] (lines 607-656). *)
Definition simulate_vehicle_position (now : Qc) (draw : Z)
    (route_points : list (Qc * Qc)) (route_stops : list TransportStop)
    (vehicle_id total_vehicles : Z) : result (option Snapshot) :=
  if bool_decide (route_points = []) || (len route_points <? 2) then Return None
  else
    let! progress := progress now vehicle_id total_vehicles in
    let total_segments := total_segments route_points in
    let current_segment_float := current_segment_float progress total_segments in
    let current_segment := current_segment current_segment_float total_segments in
    let last_stop_idx := current_segment in
    let next_stop_idx := Z.min (current_segment + 1) (len route_stops - 1) in
    let! last_stop :=
      if last_stop_idx <? len route_stops
      then let! s := py_index route_stops last_stop_idx in Return (name s)
      else Return "Unknown" in
    let! next_stop :=
      if next_stop_idx <? len route_stops
      then let! s := py_index route_stops next_stop_idx in Return (name s)
      else Return "Terminal" in
    let local_progress := local_progress current_segment_float current_segment in
    let! p1 := py_index route_points current_segment in
    let! p2 := py_index route_points
                 (Z.min (current_segment + 1) (len route_points - 1)) in
    let lat := (p1.1 + (p2.1 - p1.1) * local_progress)%Qc in
    let lon := (p1.2 + (p2.2 - p1.2) * local_progress)%Qc in
    let '(current_stop, status, eta) :=
      if decide (local_progress < Q2Qc (1 # 10))%Qc
      then (last_stop, "At Stop", 0)
      else if decide (Q2Qc (9 # 10) < local_progress)%Qc
      then (next_stop, "Arriving", 1)
      else (last_stop, "In Transit", randint draw 2 8) in
    Return (Some {|
      position := (lat, lon);
      last_stop := last_stop;
      current_stop := current_stop;
      next_stop := next_stop;
      status := status;
      eta := eta
    |}).

(** [extract_route_name] (lines 564-584). *)
Definition extract_route_name (route_str : string) : result string :=
  if negb (PyStr.truthy route_str) then Return "Unknown"
  else
    let route_str := PyStr.strip route_str in
    if PyStr.isdigit route_str then Return (String.append "Line " route_str)
    else if PyStr.contains "ref:" (PyStr.lower route_str) then
      let parts := PyStr.split ":" route_str in
      if len parts >? 1 then
        let! part := py_index parts 1 in Return (PyStr.strip part)
      else Return route_str
    else Return route_str.

End DashboardV5.

(** ** dashboard_v4_backup.py *)

Module DashboardV4.
Section RoutePolyline.

Variable pow_half : Qc -> Qc.

(** The [key] of the [min] call (lines 501-502). *)
Definition distance_key (last s : TransportStop) : Qc :=
  pow_half ((latitude s - latitude last) ^ 2
            + (longitude s - longitude last) ^ 2)%Qc.

(** The [while remaining:] loop (lines 499-504). *)
Fixpoint order_loop (fuel : nat) (sorted_stops remaining : list TransportStop)
  : option (result (list TransportStop)) :=
  match remaining with
  | [] => Some (Return sorted_stops)
  | _ :: _ =>
      match fuel with
      | O => None
      | S fuel =>
          match py_index sorted_stops (-1) with
          | Raise e => Some (Raise e)
          | Return last =>
              match py_min_by (distance_key last) remaining with
              | Raise e => Some (Raise e)
              | Return nearest =>
                  match list_remove nearest remaining with
                  | Raise e => Some (Raise e)
                  | Return remaining =>
                      order_loop fuel (sorted_stops ++ [nearest]) remaining
                  end
              end
          end
      end
  end.

(** [generate_route_polyline] (lines 489-506): this version returns the
    points only. *)
Definition generate_route_polyline (fuel : nat) (stops : list TransportStop)
    (route_name : string)
  : option (result (option (list (Qc * Qc)))) :=
  let route_stops := List.filter (fun s => str_in route_name (routes s)) stops in
  if len route_stops <? 2 then Some (Return None)
  else
    match route_stops with
    | [] => Some (Raise IndexError)
    | first :: remaining =>
        match order_loop fuel [first] remaining with
        | None => None
        | Some (Raise e) => Some (Raise e)
        | Some (Return sorted_stops) =>
            Some (Return (Some
              (List.map (fun s => (latitude s, longitude s)) sorted_stops)))
        end
    end.

End RoutePolyline.

(** [simulate_vehicle_position] (lines 509-529): this version takes no
    Stop sequence, reads no clock and returns the position only. *)
Definition simulate_vehicle_position (route_points : list (Qc * Qc))
    (vehicle_id total_vehicles : Z) : result (option (Qc * Qc)) :=
  if bool_decide (route_points = []) || (len route_points <? 2) then Return None
  else
    let! q := int_truediv vehicle_id total_vehicles in
    let progress := float_mod q 1 in
    let idx := py_int (progress * Qc_of_Z (len route_points - 1))%Qc in
    if idx >=? len route_points - 1 then
      let! p := py_index route_points (-1) in Return (Some p)
    else
      let! p1 := py_index route_points idx in
      let! p2 := py_index route_points (idx + 1) in
      let local_progress :=
        float_mod (progress * Qc_of_Z (len route_points - 1))%Qc 1 in
      let lat := (p1.1 + (p2.1 - p1.1) * local_progress)%Qc in
      let lon := (p1.2 + (p2.2 - p1.2) * local_progress)%Qc in
      Return (Some (lat, lon)).

End DashboardV4.

(** * Definitions that follow the specification's words *)

(** Deduplication preserving first-seen order: an entry is kept when it was
    not seen before. *)
Fixpoint keep_first_seen (seen l : list string) : list string :=
  match l with
  | [] => []
  | x :: l' =>
      if str_in x seen then keep_first_seen seen l'
      else x :: keep_first_seen (seen ++ [x]) l'
  end.

(** The values of every key other than "lines" that contains "route"
    (case-insensitive) and has a non-empty value, in the order of the bag. *)
Definition route_values (tags : Tags) : list string :=
  List.map snd
    (List.filter
       (fun kv => negb (String.eqb (fst kv) "lines")
                  && PyStr.contains "route" (PyStr.lower (fst kv))
                  && PyStr.truthy (snd kv))
       tags).

(** The segments of the "lines" value split on [;]. *)
Definition lines_segments (tags : Tags) : list string :=
  match tags_get tags "lines" with
  | Some v => PyStr.split ";" v
  | None => []
  end.

(** Route extraction as the specification words it: only the segments of
    "lines" are trimmed and filtered; the values of the route keys are
    added as they are. *)
Definition extract_routes_stated (tags : Tags) : list string :=
  firstn 5
    (keep_first_seen []
       (List.filter PyStr.truthy (List.map PyStr.strip (lines_segments tags))
        ++ route_values tags)).

(** Route extraction as the code does it: every collected entry, segment
    or route value, is trimmed and dropped when that leaves it empty. *)
Definition extract_routes_trimmed (tags : Tags) : list string :=
  firstn 5
    (keep_first_seen []
       (List.filter PyStr.truthy
          (List.map PyStr.strip (lines_segments tags ++ route_values tags)))).

(** The events of a call that made the attempts [0] to [i]: a request per
    attempt and the fixed delay between two attempts. *)
Fixpoint attempts_trace (i : nat) : list Event :=
  match i with
  | O => [Post 0]
  | S j => attempts_trace j ++ [Sleep 5; Post (S j)]
  end.

(** An attempt's outcome is retried (when an attempt is left) if it raised
    an instance of [Timeout] or of [RequestException]. *)
Definition retryable (outcome : result (list TransportStop) * Stats) : bool :=
  match fst outcome with
  | Raise e => isinstance_Timeout e || isinstance_RequestException e
  | Return _ => false
  end.

(** The counter states a pipeline object can be in: [__init__] creates the
    counters, [fetch_transport_stops] updates them, and the handler of
    [process_and_store] appends to [errors]. *)
Inductive reachable : Stats -> Prop :=
  | reachable_init : reachable initial_stats
  | reachable_fetch net st latitude longitude radius :
      reachable st ->
      reachable (snd (fst (fetch_transport_stops net st latitude longitude radius)))
  | reachable_store_error msg st :
      reachable st -> reachable (append_error msg st).

(** An element that is a node with a recognised tag and no [lat] key. *)
Definition node_without_lat : Element :=
  {| el_type := Some "node";
     el_id := Some 4242;
     el_lat := None;
     el_lon := Some (Qc_of_Z 0);
     el_tags := Some [("highway", "bus_stop")] |}.

(** An element carries the geometry the constructor call reads. *)
Definition has_geometry (element : Element) : Prop :=
  is_Some (el_id element) /\ is_Some (el_lat element) /\ is_Some (el_lon element).


(** The square of the Euclidean distance between two stops in (lat, lon)
    degree-space; distances compare as their squares do. *)
Definition squared_distance (last s : TransportStop) : Qc :=
  ((latitude s - latitude last) ^ 2 + (longitude s - longitude last) ^ 2)%Qc.

(** The computed root keeps apart the distances between the stops of [l]:
    of two stops at different distances from a third, the nearer one has
    the strictly smaller distance key. *)
Definition separates_distances (pow_half : Qc -> Qc) (l : list TransportStop)
  : Prop :=
  forall s t u, s ∈ l -> t ∈ l -> u ∈ l ->
    (squared_distance s t < squared_distance s u)%Qc ->
    (Dashboard.distance_key pow_half s t < Dashboard.distance_key pow_half s u)%Qc.

(** [x mod m]: what is left of [x] above the whole multiples of [m]. *)
Definition modulo (x m : Qc) : Qc :=
  (x - m * Qc_of_Z (Qfloor (x / m)))%Qc.

(** The cyclic progress as the specification writes it. *)
Definition progress_stated (now : Qc) (vehicle_index total_vehicles : Z) : Qc :=
  modulo (Qc_of_Z vehicle_index / Qc_of_Z total_vehicles
          + modulo now (Qc_of_Z 60) / Qc_of_Z 600)%Qc 1%Qc.

(** The segment index as the specification writes it: the floor of
    [progress * segment_count], clamped to the last segment. *)
Definition segment_stated (progress : Qc) (segment_count : Z) : Z :=
  Z.min (Qfloor (progress * Qc_of_Z segment_count)%Qc) (segment_count - 1).

(** Linear interpolation between the two ends of a segment. *)
Definition interpolate (p1 p2 : Qc * Qc) (local_progress : Qc) : Qc * Qc :=
  ((p1.1 + (p2.1 - p1.1) * local_progress)%Qc,
   (p1.2 + (p2.2 - p1.2) * local_progress)%Qc).

(** [d.get(key)] on a dictionary kept in insertion order. *)
Fixpoint dict_get {V : Type} (d : list (string * V)) (key : string) : option V :=
  match d with
  | [] => None
  | (k, v) :: rest => if String.eqb k key then Some v else dict_get rest key
  end.

(** The Stops a response yields: the elements that convert, in order. *)
Definition accepted (elements : list Element) : list TransportStop :=
  omap (fun element =>
          match from_osm_element element with
          | Return (Some stop) => Some stop
          | _ => None
          end)
       elements.

(** The number of Stops of one transport type. *)
Definition count_type (t : TransportType) (stops : list TransportStop) : Z :=
  count_if (fun s => bool_decide (transport_type s = t)) stops.

Definition all_types : list TransportType :=
  [BUS; SUBWAY; TRAM; TRAIN; FERRY; LIGHT_RAIL].

(** The accessibility entries of the metrics: the key of the count, the key
    of the percentage and the test a Stop passes to be counted. *)
Definition accessibility_fields : list (string * string * (TransportStop -> bool)) :=
  [ ("wheelchair_accessible", "wheelchair_pct", wheelchair_accessible);
    ("with_shelter", "shelter_pct", has_shelter);
    ("with_bench", "bench_pct", has_bench);
    ("with_tactile_paving", "tactile_pct", has_tactile_paving);
    ("with_route_info", "routes_pct",
     fun s => negb (bool_decide (routes s = []))) ].

(** The names of the Stops of a sequence. *)
Definition stop_names (stops : list TransportStop) : list string :=
  List.map name stops.

(** The share [x / total * 100] rounded to two decimals, as the metrics
    compute it for a total that is not zero. *)
Definition pct_value (x total : Z) : Qc :=
  round2 (Qc_of_Z x / Qc_of_Z total * Qc_of_Z 100)%Qc.


(** ** Concrete inputs *)

(** [floor (log2 (n / d))] for positive [n] and [d]. *)
Definition floor_log2 (n d : Z) : Z :=
  let k := Z.log2 n - Z.log2 d in
  if n * 2 ^ Z.max 0 (- k) <? d * 2 ^ Z.max 0 k then k - 1 else k.

(** A realisation of [x ** 0.5] on a float that is not negative: the square
    root rounded to the nearest binary64 value [m * 2 ^ (e - 52)], with
    [2 ^ 52 <= m <= 2 ^ 53], ties to the even [m].  Subnormal and
    overflowing results are outside the model.  Python computes
    [x ** 0.5] with C's [pow], which may differ from this value by one unit
    in the last place; the two agree at the arguments of the examples
    below. *)
Definition sqrt_binary64 (x : Qc) : Qc :=
  if decide (x ≤ 0)%Qc then 0%Qc
  else
    let n := Qnum x in
    let d := Zpos (Qden x) in
    let e := floor_log2 n d / 2 in
    let N := n * 4 ^ Z.max 0 (52 - e) in
    let D := d * 4 ^ Z.max 0 (e - 52) in
    let m0 := Z.sqrt (N / D) in
    let m :=
      match 4 * N ?= (4 * m0 * m0 + 4 * m0 + 1) * D with
      | Lt => m0
      | Gt => m0 + 1
      | Eq => if Z.even m0 then m0 else m0 + 1
      end in
    (Qc_of_Z m
     * Q2Qc (2 ^ Z.max 0 (e - 52) # Z.to_pos (2 ^ Z.max 0 (52 - e))))%Qc.

Definition example_stop (label : string) (lat lon : Z) (lines : list string)
  : TransportStop :=
  {| osm_id := label; name := label;
     latitude := Qc_of_Z lat; longitude := Qc_of_Z lon;
     transport_type := BUS; operator := None; network := None;
     routes := lines; ref := None;
     wheelchair_accessible := false; has_shelter := false;
     has_bench := false; has_tactile_paving := false;
     metadata := [("highway", "bus_stop")] |}.

(** Five stops, four of them on line "10". *)
Definition example_stops : list TransportStop :=
  [ example_stop "A" 0 0 ["10"];
    example_stop "X" 1 1 ["20"];
    example_stop "B" 5 5 ["10"; "20"];
    example_stop "C" 1 0 ["10"];
    example_stop "D" 3 3 ["10"] ].


(** A straight path of [n] stops, one degree apart. *)
Definition line_stops (n : nat) : list TransportStop :=
  List.map (fun i => example_stop (pretty i) (Z.of_nat i) 0 ["10"]) (seq 0 n).

Definition line_points (n : nat) : list (Qc * Qc) :=
  List.map (fun s => (latitude s, longitude s)) (line_stops n).

(** A node that is accepted and a way that is rejected. *)
Definition bus_stop_node : Element :=
  {| el_type := Some "node"; el_id := Some 7;
     el_lat := Some (Qc_of_Z 1); el_lon := Some (Qc_of_Z 2);
     el_tags := Some [("highway", "bus_stop"); ("lines", "10;20")] |}.

Definition way_element : Element :=
  {| el_type := Some "way"; el_id := Some 8;
     el_lat := None; el_lon := None; el_tags := None |}.

(** A node with its geometry whose tags match no rule. *)
Definition unclassified_node : Element :=
  {| el_type := Some "node"; el_id := Some 9;
     el_lat := Some (Qc_of_Z 3); el_lon := Some (Qc_of_Z 4);
     el_tags := Some [("shop", "bakery")] |}.

(** * Properties *)

(** ** Tag classification *)

(** C4: every attribute bag whose "highway" value is "bus_stop" is
    classified as BUS, whatever else the bag holds: the first rule decides
    before any other key is read. *)
Theorem from_osm_tags_highway_bus_stop (tags : Tags) :
  tags_get tags "highway" = Some "bus_stop" ->
  from_osm_tags tags = Some BUS.
Proof.
  intros Hhighway. unfold from_osm_tags. rewrite Hhighway. reflexivity.
Qed.

Lemma from_osm_tags_highway_bus_stop_witness :
  from_osm_tags [("railway", "station"); ("amenity", "ferry_terminal");
                 ("highway", "bus_stop"); ("tram", "tram")] = Some BUS.
Proof.
  apply (from_osm_tags_highway_bus_stop
           [("railway", "station"); ("amenity", "ferry_terminal");
            ("highway", "bus_stop"); ("tram", "tram")]).
  reflexivity.
Defined.

(** ** Route-identifier extraction *)

Section ExtractRoutes.

(** The loop over [tags.items()] appends, in order, the values it
    selects. *)
Lemma collect_route_values (sel : string * string -> bool) (tags : Tags)
    (acc : list string) :
  fold_left
    (fun routes kv =>
       let '(key, value) := kv in
       if sel (key, value) then routes ++ [value] else routes)
    tags acc
  = acc ++ List.map snd (List.filter sel tags).
Proof.
  revert acc. induction tags as [|[key value] tags IH]; intros acc; simpl.
  - symmetry. apply app_nil_r.
  - rewrite IH. destruct (sel (key, value)); simpl.
    + rewrite <- app_assoc. reflexivity.
    + reflexivity.
Qed.

(** No key equal to "lines" contains "route". *)
Lemma lines_is_no_route_key (key : string) :
  PyStr.contains "route" (PyStr.lower key) = true ->
  String.eqb key "lines" = false.
Proof.
  intros Hroute. destruct (String.eqb key "lines") eqn:Heq; [|reflexivity].
  apply String.eqb_eq in Heq. subst key. vm_compute in Hroute. discriminate.
Qed.

Lemma strip_then_filter (l : list string) :
  List.map PyStr.strip (List.filter (fun r => PyStr.truthy (PyStr.strip r)) l)
  = List.filter PyStr.truthy (List.map PyStr.strip l).
Proof.
  induction l as [|r l IH]; simpl; [reflexivity|].
  destruct (PyStr.truthy (PyStr.strip r)); simpl; rewrite IH; reflexivity.
Qed.

(** [dict.fromkeys] keeps first occurrences. *)
Lemma fromkeys_from (l keys : list string) :
  fold_left (fun keys x => if str_in x keys then keys else keys ++ [x]) l keys
  = keys ++ keep_first_seen keys l.
Proof.
  revert keys. induction l as [|x l IH]; intros keys; simpl.
  - symmetry. apply app_nil_r.
  - rewrite IH. destruct (str_in x keys); [reflexivity|].
    rewrite <- app_assoc. reflexivity.
Qed.

Lemma dict_fromkeys_keep_first_seen (l : list string) :
  dict_fromkeys l = keep_first_seen [] l.
Proof. unfold dict_fromkeys. rewrite fromkeys_from. reflexivity. Qed.

Lemma str_in_elem_of (x : string) (l : list string) :
  str_in x l = true <-> x ∈ l.
Proof.
  unfold str_in. rewrite existsb_exists. split.
  - intros (y & Hy & Heq). apply String.eqb_eq in Heq. subst y.
    apply list_elem_of_In, Hy.
  - intros Hx. exists x. split; [apply list_elem_of_In, Hx|apply String.eqb_refl].
Qed.

(** What is kept was not seen before and is kept once. *)
Lemma keep_first_seen_fresh (l seen : list string) :
  NoDup (keep_first_seen seen l)
  /\ forall x, x ∈ keep_first_seen seen l -> x ∉ seen.
Proof.
  revert seen. induction l as [|y l IH]; intros seen; simpl.
  - split; [constructor|]. intros x Hx. inversion Hx.
  - destruct (str_in y seen) eqn:Hy; [apply IH|].
    destruct (IH (seen ++ [y])) as [Hnd Hfresh]. split.
    + constructor; [|exact Hnd].
      intros Hin. apply (Hfresh y Hin), elem_of_app. right. constructor.
    + intros x Hx. apply elem_of_cons in Hx as [->|Hx].
      * intros Hin. apply str_in_elem_of in Hin. congruence.
      * intros Hin. apply (Hfresh x Hx), elem_of_app. left. exact Hin.
Qed.

Lemma route_values_filter (tags : Tags) :
  List.map snd
    (List.filter
       (fun kv => PyStr.contains "route" (PyStr.lower (fst kv))
                  && PyStr.truthy (snd kv))
       tags)
  = route_values tags.
Proof.
  unfold route_values.
  induction tags as [|[key value] tags IH]; simpl; [reflexivity|].
  destruct (PyStr.contains "route" (PyStr.lower key)) eqn:Hroute.
  - rewrite (lines_is_no_route_key key Hroute). simpl.
    destruct (PyStr.truthy value); simpl; rewrite IH; reflexivity.
  - rewrite andb_false_r. simpl. exact IH.
Qed.

Lemma extract_routes_collected (tags : Tags) :
  _extract_routes tags
  = firstn 5
      (dict_fromkeys
         (List.map PyStr.strip
            (List.filter (fun r => PyStr.truthy (PyStr.strip r))
               (lines_segments tags ++ route_values tags)))).
Proof.
  unfold _extract_routes, slice_to.
  rewrite (collect_route_values
             (fun kv => PyStr.contains "route" (PyStr.lower (fst kv))
                        && PyStr.truthy (snd kv))).
  rewrite route_values_filter. unfold lines_segments.
  destruct (tags_get tags "lines"); reflexivity.
Qed.

End ExtractRoutes.

(** C5 (amended): for every attribute bag, route-identifier extraction
    returns the segments of the "lines" value split on [;] followed by the
    non-empty values of every other key containing "route"
    (case-insensitive), every entry trimmed and dropped when empty after
    trimming, deduplicated case-sensitively in first-seen order and cut to
    the first 5 entries; the result has no duplicate and at most 5 entries;
    and for lines = "107M;177H;178" it is ["107M"; "177H"; "178"]. *)
Theorem extract_routes_correct (tags : Tags) :
  _extract_routes tags = extract_routes_trimmed tags
  /\ NoDup (_extract_routes tags)
  /\ (length (_extract_routes tags) <= 5)%nat
  /\ _extract_routes [("lines", "107M;177H;178")] = ["107M"; "177H"; "178"].
Proof.
  assert (Heq : _extract_routes tags = extract_routes_trimmed tags).
  { rewrite extract_routes_collected. unfold extract_routes_trimmed.
    rewrite strip_then_filter, dict_fromkeys_keep_first_seen. reflexivity. }
  split; [exact Heq|]. rewrite Heq. unfold extract_routes_trimmed.
  split; [|split].
  - eapply sublist_NoDup; [apply keep_first_seen_fresh|apply sublist_take].
  - rewrite length_take. lia.
  - reflexivity.
Qed.

(** C5 as stated fails: the value of a route key is trimmed too.  For the
    bag [{"route_ref": " 10 "}] the code returns ["10"], not the value
    [" 10 "] as it stands in the bag. *)
Lemma extract_routes_trims_route_values :
  _extract_routes [("route_ref", " 10 ")] = ["10"]
  /\ extract_routes_stated [("route_ref", " 10 ")] = [" 10 "]
  /\ _extract_routes [("route_ref", " 10 ")]
     <> extract_routes_stated [("route_ref", " 10 ")].
Proof. repeat split. vm_compute. discriminate. Qed.

(** ** Stop normalization *)

Section Normalization.

Lemma from_osm_element_not_node (element : Element) :
  el_type element <> Some "node" -> from_osm_element element = Return None.
Proof.
  intros Htype. unfold from_osm_element.
  destruct (el_type element) as [t|]; simpl; [|reflexivity].
  destruct (String.eqb t "node") eqn:Heq; [|reflexivity].
  apply String.eqb_eq in Heq. congruence.
Qed.

Lemma from_osm_element_unclassified (element : Element) :
  from_osm_tags (default [] (el_tags element)) = None ->
  from_osm_element element = Return None.
Proof.
  intros Htags. unfold from_osm_element.
  destruct (negb _); [reflexivity|].
  destruct (el_tags element); simpl in Htags; rewrite Htags; reflexivity.
Qed.

(** With its geometry present an element is converted or rejected. *)
Lemma from_osm_element_returns (element : Element) :
  has_geometry element -> exists r, from_osm_element element = Return r.
Proof.
  intros ([id Hid] & [lat Hlat] & [lon Hlon]). unfold from_osm_element.
  destruct (negb _); [eexists; reflexivity|].
  destruct (from_osm_tags _); [|eexists; reflexivity].
  rewrite Hid, Hlat, Hlon. simpl. eexists; reflexivity.
Qed.

(** The only exception of the conversion is the [KeyError] of a missing
    key. *)
Lemma from_osm_element_raises (element : Element) (e : exn) :
  from_osm_element element = Raise e -> exists key, e = KeyError key.
Proof.
  unfold from_osm_element. destruct (negb _); [discriminate|].
  destruct (from_osm_tags _); [|discriminate].
  destruct (el_id element), (el_lat element), (el_lon element); simpl;
    intros H; inversion H; eexists; reflexivity.
Qed.

Lemma parse_elements_raises elements stops st e st' :
  parse_elements elements stops st = (Raise e, st') ->
  exists key, e = KeyError key.
Proof.
  revert stops st. induction elements as [|element rest IH]; intros stops st; simpl.
  - discriminate.
  - destruct (from_osm_element element) as [[stop|]|e0] eqn:Hel.
    + apply IH.
    + apply IH.
    + intros H. inversion H; subst. eapply from_osm_element_raises, Hel.
Qed.

(** The counters only grow. *)
Lemma parse_elements_counters elements stops st r st' :
  parse_elements elements stops st = (r, st') ->
  stops_processed st <= stops_processed st'
  /\ stops_failed st <= stops_failed st'.
Proof.
  revert stops st. induction elements as [|element rest IH]; intros stops st; simpl.
  - intros H. inversion H; subst. lia.
  - destruct (from_osm_element element) as [[stop|]|e0].
    + intros H. apply IH in H. simpl in H. lia.
    + intros H. apply IH in H. simpl in H. lia.
    + intros H. inversion H; subst. lia.
Qed.

(** On elements that carry their geometry the loop returns the converted
    stops in order and tallies every element: the accepted ones in
    [stops_processed], the rejected ones in [stops_failed]. *)
Lemma parse_elements_tally elements stops st :
  Forall has_geometry elements ->
  exists new st',
    parse_elements elements stops st = (Return (stops ++ new), st')
    /\ stops_processed st' = stops_processed st + len new
    /\ stops_failed st' = stops_failed st + (len elements - len new)
    /\ api_calls st' = api_calls st /\ errors st' = errors st.
Proof.
  unfold len. intros Hgeo. revert stops st.
  induction Hgeo as [|element rest Hel _ IH]; intros stops st; simpl.
  - exists [], st. rewrite app_nil_r. simpl. repeat split; lia.
  - destruct (from_osm_element_returns element Hel) as [[stop|] ->].
    + destruct (IH (stops ++ [stop]) (incr_processed st))
        as (new & st' & -> & Hp & Hf & Ha & He).
      exists (stop :: new), st'. rewrite <- app_assoc. simpl in *.
      repeat split; try assumption; lia.
    + destruct (IH stops (incr_failed st)) as (new & st' & -> & Hp & Hf & Ha & He).
      exists new, st'. simpl in *. repeat split; try assumption; lia.
Qed.

End Normalization.

(** C1 (the code departs from it): a node with a recognised tag and no
    [lat] key is not rejected.  The conversion raises [KeyError], the
    fetch that meets the element lets the exception through to its caller
    on the first attempt, and the element is not counted in
    [stops_failed]. *)
Theorem from_osm_element_missing_lat_raises :
  from_osm_element node_without_lat = Raise (KeyError "lat")
  /\ fetch_transport_stops (fun _ _ _ _ => JsonObject [node_without_lat])
       initial_stats (Qc_of_Z 0) (Qc_of_Z 0) 2000
     = (Raise (KeyError "lat"),
        {| stops_processed := 0; stops_failed := 0; api_calls := 1; errors := [] |},
        [Post 0]).
Proof. split; reflexivity. Qed.

(** ** The retry loop *)

Section Retry.

(** A failure that is retried happened before any element was parsed: it
    leaves the counters as they were. *)
Lemma retryable_keeps_stats (resp : Response) (st : Stats) :
  retryable (try_body resp st) = true -> snd (try_body resp st) = st.
Proof.
  unfold retryable. destruct resp as [e| | | |elements]; simpl; try reflexivity.
  destruct (parse_elements elements [] st) as [[stops|e] st'] eqn:Hparse; simpl.
  - discriminate.
  - apply parse_elements_raises in Hparse as [key ->]. discriminate.
Qed.

(** One iteration of the loop, by the kind of its outcome. *)
Lemma fetch_attempts_stop net attempt rest st trace :
  retryable (try_body (net attempt) st) = false ->
  fetch_attempts net (attempt :: rest) st trace
  = (try_body (net attempt) st, trace ++ [Post attempt]).
Proof.
  unfold retryable. simpl.
  destruct (try_body (net attempt) st) as [[stops|e] st']; simpl; [reflexivity|].
  intros Hno. apply orb_false_elim in Hno as [-> ->]. reflexivity.
Qed.

Lemma fetch_attempts_last net attempt rest st trace :
  (Z.of_nat attempt <? max_retries - 1) = false ->
  fetch_attempts net (attempt :: rest) st trace
  = (try_body (net attempt) st, trace ++ [Post attempt]).
Proof.
  intros Hlast. simpl. rewrite Hlast.
  destruct (try_body (net attempt) st) as [[stops|e] st']; [reflexivity|].
  destruct (isinstance_Timeout e), (isinstance_RequestException e); reflexivity.
Qed.

Lemma fetch_attempts_retry net attempt rest st trace :
  retryable (try_body (net attempt) st) = true ->
  (Z.of_nat attempt <? max_retries - 1) = true ->
  fetch_attempts net (attempt :: rest) st trace
  = fetch_attempts net rest st (trace ++ [Post attempt] ++ [Sleep retry_delay]).
Proof.
  intros Hretry Hmore. pose proof (retryable_keeps_stats _ _ Hretry) as Hst.
  unfold retryable in Hretry. simpl. rewrite Hmore.
  destruct (try_body (net attempt) st) as [[stops|e] st']; simpl in *;
    [discriminate|]. subst st'. rewrite <- app_assoc.
  destruct (isinstance_Timeout e); [reflexivity|].
  simpl in Hretry. rewrite Hretry. reflexivity.
Qed.

(** The counters only grow over a fetch. *)
Lemma fetch_attempts_counters net attempts st trace :
  let st' := snd (fst (fetch_attempts net attempts st trace)) in
  stops_processed st <= stops_processed st'
  /\ stops_failed st <= stops_failed st'.
Proof.
  revert st trace. induction attempts as [|attempt rest IH]; intros st trace.
  - simpl. lia.
  - destruct (retryable (try_body (net attempt) st)) eqn:Hretry.
    + destruct (Z.of_nat attempt <? max_retries - 1) eqn:Hmore.
      * rewrite (fetch_attempts_retry _ _ _ _ _ Hretry Hmore). apply IH.
      * rewrite (fetch_attempts_last _ _ _ _ _ Hmore). simpl.
        rewrite (retryable_keeps_stats _ _ Hretry). lia.
    + rewrite (fetch_attempts_stop _ _ _ _ _ Hretry). simpl.
      destruct (net attempt) as [e| | | |elements]; simpl; try lia.
      destruct (parse_elements elements [] st) as [r st'] eqn:Hparse.
      apply parse_elements_counters in Hparse. exact Hparse.
Qed.

End Retry.

(** C2 (amended): [fetch_transport_stops] makes at most 3 attempts.  There
    is an attempt [i < 3] before which every attempt raised a [Timeout] or
    another [RequestException] and was followed by the fixed delay of 5 and
    the next attempt, and whose own outcome ends the call: the stops it
    parsed, or the exception it raised, handed to the caller as raised (so
    a timeout stays a timeout).  Attempt [i] raised a retried class only if
    it is the third one.  An exception outside [RequestException], such as
    the [AttributeError] of a JSON body that is not an object, therefore
    surfaces on the attempt where it occurs; a body that is not JSON raises
    [requests]' [JSONDecodeError], which is a [RequestException], and is
    retried like a transport error. *)
Theorem fetch_transport_stops_attempts
    (net : Qc -> Qc -> Z -> nat -> Response) (st : Stats)
    (latitude longitude : Qc) (radius : Z) :
  let outcome := fun i => try_body (net latitude longitude radius i) (incr_api_calls st) in
  (exists i : nat,
      (i < 3)%nat
      /\ (forall j, (j < i)%nat -> retryable (outcome j) = true)
      /\ (retryable (outcome i) = true -> i = 2%nat)
      /\ fetch_transport_stops net st latitude longitude radius
         = (outcome i, attempts_trace i))
  /\ (length (List.filter is_Post
        (snd (fetch_transport_stops net st latitude longitude radius))) <= 3)%nat
  /\ retryable (try_body MalformedBody (incr_api_calls st)) = true
  /\ retryable (try_body JsonNotObject (incr_api_calls st)) = false.
Proof.
  intros outcome.
  assert (Hmain : exists i : nat,
      (i < 3)%nat
      /\ (forall j, (j < i)%nat -> retryable (outcome j) = true)
      /\ (retryable (outcome i) = true -> i = 2%nat)
      /\ fetch_transport_stops net st latitude longitude radius
         = (outcome i, attempts_trace i)).
  { unfold fetch_transport_stops. change (seq 0 (Z.to_nat max_retries)) with [0; 1; 2]%nat.
    destruct (retryable (outcome 0%nat)) eqn:H0.
    - rewrite (fetch_attempts_retry _ 0%nat _ _ _ H0 eq_refl).
      destruct (retryable (outcome 1%nat)) eqn:H1.
      + rewrite (fetch_attempts_retry _ 1%nat _ _ _ H1 eq_refl).
        rewrite (fetch_attempts_last _ 2%nat _ _ _ eq_refl).
        exists 2%nat. split; [lia|]. split; [|split; reflexivity].
        intros j Hj. destruct j as [|[|j]]; [assumption|assumption|lia].
      + rewrite (fetch_attempts_stop _ 1%nat _ _ _ H1).
        exists 1%nat. split; [lia|]. split; [|split].
        * intros j Hj. destruct j as [|j]; [assumption|lia].
        * intros Hretry. congruence.
        * reflexivity.
    - rewrite (fetch_attempts_stop _ 0%nat _ _ _ H0).
      exists 0%nat. split; [lia|]. split; [|split].
      + intros j Hj. lia.
      + intros Hretry. congruence.
      + reflexivity. }
  split; [exact Hmain|]. split; [|split; reflexivity].
  destruct Hmain as (i & Hi & _ & _ & ->). simpl.
  destruct i as [|[|[|i]]]; simpl; lia.
Qed.

(** C2 as stated fails: a malformed response body is retried.  When every
    response has a body that is not JSON, the call makes all three attempts
    with the two delays before it raises. *)
Lemma malformed_body_is_retried :
  fetch_transport_stops (fun _ _ _ _ => MalformedBody) initial_stats
    (Qc_of_Z 0) (Qc_of_Z 0) 2000
  = (Raise JSONDecodeError,
     {| stops_processed := 0; stops_failed := 0; api_calls := 1; errors := [] |},
     [Post 0; Sleep 5; Post 1; Sleep 5; Post 2])
  /\ snd (fetch_transport_stops (fun _ _ _ _ => MalformedBody) initial_stats
            (Qc_of_Z 0) (Qc_of_Z 0) 2000)
     <> [Post 0].
Proof. split; [reflexivity|]. vm_compute. discriminate. Qed.

(** ** Metrics *)

Section MetricsFacts.

Lemma pct_returns (x total : Z) :
  total <> 0 -> exists p, pct x total = Return p.
Proof.
  intros Htotal. unfold pct, int_truediv.
  destruct (decide (total = 0)); [contradiction|]. simpl. eexists; reflexivity.
Qed.

(** No collection makes [calculate_metrics] divide by zero. *)
Lemma calculate_metrics_returns (stops : list TransportStop) :
  exists m, calculate_metrics stops = Return m
            /\ total_stops m = len stops.
Proof.
  destruct stops as [|stop stops]; [eexists; split; reflexivity|].
  unfold calculate_metrics.
  assert (Hlen : Z.of_nat (length (stop :: stops)) <> 0) by (simpl; lia).
  destruct (pct_returns (count_if wheelchair_accessible (stop :: stops)) _ Hlen) as [? ->].
  destruct (pct_returns (count_if has_shelter (stop :: stops)) _ Hlen) as [? ->].
  destruct (pct_returns (count_if has_bench (stop :: stops)) _ Hlen) as [? ->].
  destruct (pct_returns (count_if has_tactile_paving (stop :: stops)) _ Hlen) as [? ->].
  destruct (pct_returns
              (count_if (fun s => negb (bool_decide (routes s = []))) (stop :: stops))
              _ Hlen) as [? ->].
  eexists; split; reflexivity.
Qed.

End MetricsFacts.

(** C3 (amended): for the empty Stop collection the Metrics Aggregator
    returns total count 0, an empty by-type mapping and an empty
    accessibility mapping: no count and no percentage is present under any
    key, none is computed and nothing is divided. *)
Theorem calculate_metrics_empty :
  calculate_metrics []
  = Return {| total_stops := 0; by_type := ∅; accessibility := ∅ |}
  /\ forall m, calculate_metrics [] = Return m ->
       total_stops m = 0 /\ forall key : string, accessibility m !! key = None.
Proof.
  split; [reflexivity|]. intros m Hm. inversion Hm; subst; simpl.
  split; [reflexivity|]. intros key. apply lookup_empty.
Qed.

(** C3 as stated fails: on the empty collection the percentages are not
    defined as zero, they are absent. *)
Lemma calculate_metrics_empty_has_no_percentages :
  ~ exists m, calculate_metrics [] = Return m
      /\ accessibility m !! "wheelchair_pct" = Some (Qc_of_Z 0)
      /\ accessibility m !! "shelter_pct" = Some (Qc_of_Z 0)
      /\ accessibility m !! "bench_pct" = Some (Qc_of_Z 0)
      /\ accessibility m !! "tactile_pct" = Some (Qc_of_Z 0)
      /\ accessibility m !! "routes_pct" = Some (Qc_of_Z 0).
Proof.
  intros (m & Hm & Hw & _). inversion Hm; subst; simpl in Hw.
  rewrite lookup_empty in Hw. discriminate.
Qed.

(** ** Statistics *)

Section StatisticsFacts.

Lemma reachable_counters_nonneg (st : Stats) :
  reachable st -> 0 <= stops_processed st /\ 0 <= stops_failed st.
Proof.
  induction 1 as [|net st latitude longitude radius _ IH|msg st _ IH].
  - simpl. lia.
  - unfold fetch_transport_stops.
    pose proof (fetch_attempts_counters (net latitude longitude radius)
                  (seq 0 (Z.to_nat max_retries)) (incr_api_calls st) []) as Hmono.
    simpl in Hmono. simpl. lia.
  - simpl. exact IH.
Qed.

End StatisticsFacts.

(** C9: in every reachable counter state [get_statistics] returns without
    dividing by zero; the success rate is [stops_processed] divided by
    [stops_processed + stops_failed] when that sum is positive, and it is
    exactly 0 otherwise, which happens only when both counters are zero. *)
Theorem get_statistics_success_rate (st : Stats) :
  reachable st ->
  exists rate,
    get_statistics st = Return {| stats := st; success_rate := rate |}
    /\ (0 < stops_processed st + stops_failed st ->
        rate = (Qc_of_Z (stops_processed st)
                / Qc_of_Z (stops_processed st + stops_failed st))%Qc)
    /\ (stops_processed st = 0 /\ stops_failed st = 0 -> rate = Qc_of_Z 0)
    /\ (0 < stops_processed st + stops_failed st
        \/ (stops_processed st = 0 /\ stops_failed st = 0)).
Proof.
  intros Hreach. apply reachable_counters_nonneg in Hreach as [Hp Hf].
  unfold get_statistics, int_truediv.
  destruct (stops_processed st + stops_failed st >? 0) eqn:Hsum.
  - assert (0 < stops_processed st + stops_failed st) by lia.
    destruct (decide (stops_processed st + stops_failed st = 0)); [lia|].
    simpl. eexists; split; [reflexivity|]. repeat split; [lia|]. left; assumption.
  - assert (stops_processed st = 0 /\ stops_failed st = 0) by lia.
    simpl. eexists; split; [reflexivity|]. repeat split; [lia|]. right; assumption.
Qed.

(** ** Rational arithmetic *)

Section QcFacts.

(** The rational under each operation of [Qc], up to [==]. *)
Lemma this_of_Z (n : Z) : this (Qc_of_Z n) = inject_Z n.
Proof. reflexivity. Qed.

Lemma this_plus (x y : Qc) : (this (x + y)%Qc == this x + this y)%Q.
Proof. apply Qred_correct. Qed.

Lemma this_minus (x y : Qc) : (this (x - y)%Qc == this x - this y)%Q.
Proof.
  unfold Qcminus, Qcopp, Qcplus, Q2Qc; cbn [this].
  rewrite !Qred_correct. reflexivity.
Qed.

Lemma this_mult (x y : Qc) : (this (x * y)%Qc == this x * this y)%Q.
Proof. apply Qred_correct. Qed.

Lemma this_div (x y : Qc) : (this (x / y)%Qc == this x / this y)%Q.
Proof.
  unfold Qcdiv, Qcinv, Qcmult, Q2Qc; cbn [this].
  rewrite !Qred_correct. reflexivity.
Qed.

(** The floor of [x] is the integer [f] with [f <= x < f + 1]. *)
Lemma floor_bounds (x : Q) :
  (inject_Z (Qfloor x) <= x)%Q /\ (x < inject_Z (Qfloor x) + 1)%Q.
Proof.
  split; [apply Qfloor_le|]. pose proof (Qlt_floor x) as H.
  rewrite inject_Z_plus in H. exact H.
Qed.

Lemma Qfloor_nonneg (x : Q) : (0 <= x)%Q -> 0 <= Qfloor x.
Proof.
  intros H0. destruct (floor_bounds x) as [Hl Hu].
  assert (Hb : (inject_Z (-1) < inject_Z (Qfloor x))%Q)
    by (change (inject_Z (-1)) with (-1 # 1)%Q; lra).
  rewrite <- Zlt_Qlt in Hb. lia.
Qed.

Lemma Qfloor_unit (x : Q) : (0 <= x)%Q -> (x < 1)%Q -> Qfloor x = 0.
Proof.
  intros H0 H1. pose proof (Qfloor_nonneg x H0) as Hlow.
  destruct (floor_bounds x) as [Hl Hu].
  assert (Ha : (inject_Z (Qfloor x) < inject_Z 1)%Q)
    by (change (inject_Z 1) with 1%Q; lra).
  rewrite <- Zlt_Qlt in Ha. lia.
Qed.

Lemma Qc_of_Z_nonneg (n : Z) : 0 <= n -> (0 ≤ Qc_of_Z n)%Qc.
Proof. intros Hn. apply (Z2Qc_inj_le 0 n) in Hn. rewrite Z2Qc_inj_0 in Hn. exact Hn. Qed.

(** [float_mod]: its value as a rational, its agreement with [modulo],
    and its range for a positive divisor. *)
Lemma this_float_mod (x y : Qc) :
  (this (float_mod x y)
   == this x - inject_Z (Qfloor (this x / this y)) * this y)%Q.
Proof.
  unfold float_mod. rewrite this_minus, this_mult, this_of_Z. reflexivity.
Qed.

Lemma float_mod_modulo (x y : Qc) : float_mod x y = modulo x y.
Proof. unfold float_mod, modulo. rewrite (Qcmult_comm y). reflexivity. Qed.

Lemma float_mod_range (x y : Qc) :
  (0 < y)%Qc -> (0 ≤ float_mod x y)%Qc /\ (float_mod x y < y)%Qc.
Proof.
  unfold Qcle, Qclt. rewrite this_float_mod. change (this 0%Qc) with 0%Q.
  intros Hy. destruct (floor_bounds (this x / this y)) as [H1 H2].
  set (f := inject_Z (Qfloor (this x / this y))) in *.
  assert (Hx : (this x == (this x / this y) * this y)%Q) by (field; lra).
  set (q := (this x / this y)%Q) in *.
  split; rewrite Hx at 1; nra.
Qed.

(** Below the divisor [1] the remainder is the number itself. *)
Lemma float_mod_unit (x : Qc) : (0 ≤ x)%Qc -> (x < 1)%Qc -> float_mod x 1 = x.
Proof.
  unfold Qcle, Qclt. change (this 0%Qc) with 0%Q. change (this 1%Qc) with 1%Q.
  intros H0 H1. apply Qc_is_canon. rewrite this_float_mod. change (this 1%Qc) with 1%Q.
  assert (Hdiv : (this x / 1 == this x)%Q) by field.
  rewrite (Qfloor_comp _ _ Hdiv), (Qfloor_unit _ H0 H1).
  change (inject_Z 0) with 0%Q. ring.
Qed.

End QcFacts.

(** ** The vehicle simulator *)

Section Simulator.

(** With a non-zero vehicle count the progress is computed and lies in
    [0, 1). *)
Lemma progress_returns now v t :
  t <> 0 ->
  exists p, Dashboard.progress now v t = Return p /\ (0 ≤ p)%Qc /\ (p < 1)%Qc.
Proof.
  intros Ht. unfold Dashboard.progress, int_truediv.
  destruct (decide (t = 0)); [contradiction|].
  simpl. eexists; split; [reflexivity|]. apply float_mod_range. reflexivity.
Qed.

(** On a non-negative number [int] is the floor. *)
Lemma py_int_nonneg (x : Qc) : (0 ≤ x)%Qc -> py_int x = Qfloor x /\ 0 <= Qfloor x.
Proof.
  intros Hx. unfold py_int. destruct (decide (0 ≤ x)%Qc); [|contradiction].
  split; [reflexivity|]. apply Qfloor_nonneg. exact Hx.
Qed.

(** The segment index is a valid one: it is the floor of
    [progress * total_segments], or the last segment. *)
Lemma current_segment_range (p : Qc) (n : Z) :
  (0 ≤ p)%Qc -> 1 <= n ->
  0 <= Dashboard.current_segment p n < n
  /\ Dashboard.current_segment p n = Z.min (Qfloor (p * Qc_of_Z n)%Qc) (n - 1).
Proof.
  intros Hp Hn. unfold Dashboard.current_segment.
  destruct (py_int_nonneg (p * Qc_of_Z n)%Qc) as [-> Hfloor].
  { apply Qcmult_nonneg_nonneg; [exact Hp|]. apply Qc_of_Z_nonneg. lia. }
  destruct (Qfloor (p * Qc_of_Z n)%Qc >=? n) eqn:Hcmp; lia.
Qed.

(** Indexing inside the bounds is the list lookup. *)
Lemma py_index_lookup {A : Type} (l : list A) (i : Z) :
  0 <= i < len l -> exists x, l !! Z.to_nat i = Some x /\ py_index l i = Return x.
Proof.
  intros Hi. unfold py_index.
  destruct (i <? 0) eqn:Hneg; [lia|].
  destruct ((i <? 0) || (len l <=? i)) eqn:Hout;
    [rewrite Hneg in Hout; simpl in Hout; lia|].
  destruct (lookup_lt_is_Some_2 l (Z.to_nat i)) as [x Hx]; [unfold len in Hi; lia|].
  exists x. rewrite Hx. split; reflexivity.
Qed.

(** The snapshot the simulator returns on a path of at least 2 points with
    a parallel Stop sequence, field by field. *)
Lemma simulate_returns now draw (pts : list (Qc * Qc))
    (stops : list TransportStop) v t p :
  Dashboard.progress now v t = Return p -> (0 ≤ p)%Qc ->
  2 <= len pts -> len stops = len pts ->
  let n := Dashboard.total_segments pts in
  let seg := Dashboard.current_segment p n in
  let lp := Dashboard.local_progress p n seg in
  exists start_stop end_stop p1 p2,
    stops !! Z.to_nat seg = Some start_stop
    /\ stops !! Z.to_nat (seg + 1) = Some end_stop
    /\ pts !! Z.to_nat seg = Some p1
    /\ pts !! Z.to_nat (seg + 1) = Some p2
    /\ Dashboard.simulate_vehicle_position now draw pts stops v t
       = Return (Some {|
           position := ((p1.1 + (p2.1 - p1.1) * lp)%Qc,
                        (p1.2 + (p2.2 - p1.2) * lp)%Qc);
           last_stop := name start_stop;
           current_stop :=
             if decide (lp < Q2Qc (1 # 10))%Qc then name start_stop
             else if decide (Q2Qc (9 # 10) < lp)%Qc then name end_stop
             else name start_stop;
           next_stop := name end_stop;
           status :=
             if decide (lp < Q2Qc (1 # 10))%Qc then "At Stop"
             else if decide (Q2Qc (9 # 10) < lp)%Qc then "Arriving"
             else "In Transit";
           eta :=
             if decide (lp < Q2Qc (1 # 10))%Qc then 0
             else if decide (Q2Qc (9 # 10) < lp)%Qc then 1
             else randint draw 2 8
         |}).
Proof.
  intros Hprog Hp Hlen Hpar n seg lp.
  assert (Hn : 1 <= n) by (unfold n, Dashboard.total_segments; lia).
  destruct (current_segment_range p n Hp Hn) as [Hseg _]. fold seg in Hseg.
  assert (Hlenn : len pts = n + 1) by (unfold n, Dashboard.total_segments; lia).
  destruct (py_index_lookup stops seg) as (start_stop & Hs1 & Hi1); [lia|].
  destruct (py_index_lookup stops (seg + 1)) as (end_stop & Hs2 & Hi2); [lia|].
  destruct (py_index_lookup pts seg) as (p1 & Hp1 & Hj1); [lia|].
  destruct (py_index_lookup pts (seg + 1)) as (p2 & Hp2 & Hj2); [lia|].
  exists start_stop, end_stop, p1, p2. repeat (split; [assumption|]).
  unfold Dashboard.simulate_vehicle_position.
  assert (Hguard : bool_decide (pts = []) || (len pts <? 2) = false).
  { apply orb_false_intro; [|lia]. apply bool_decide_eq_false. intros ->.
    unfold len in Hlen. simpl in Hlen. lia. }
  rewrite Hguard, Hprog. cbn [bind]. fold n. fold seg. fold lp.
  replace (Z.min (seg + 1) (len stops - 1)) with (seg + 1) by lia.
  replace (Z.min (seg + 1) (len pts - 1)) with (seg + 1) by lia.
  replace (seg <? len stops) with true by lia.
  replace (seg + 1 <? len stops) with true by lia.
  rewrite Hi1, Hi2, Hj1, Hj2. cbn [bind].
  destruct (decide (lp < Q2Qc (1 # 10))%Qc); [reflexivity|].
  destruct (decide (Q2Qc (9 # 10) < lp)%Qc); reflexivity.
Qed.

(** One vehicle alone advances by the clock only: its progress stays below
    one tenth. *)
Lemma progress_single_vehicle now :
  exists p, Dashboard.progress now 0 1 = Return p
            /\ (0 ≤ p)%Qc /\ (p < Q2Qc (1 # 10))%Qc.
Proof.
  unfold Dashboard.progress, int_truediv.
  destruct (decide (1 = 0)); [lia|]. cbn [bind].
  eexists; split; [reflexivity|].
  destruct (float_mod_range now (Qc_of_Z 60)) as [Hm0 Hm60]; [reflexivity|].
  set (m := float_mod now (Qc_of_Z 60)) in *.
  set (x := (Qc_of_Z 0 / Qc_of_Z 1 + m / Qc_of_Z 600)%Qc).
  assert (Hx : (this x == this m * (1 # 600))%Q).
  { unfold x. rewrite this_plus, !this_div, !this_of_Z.
    change (inject_Z 0) with 0%Q. change (inject_Z 1) with 1%Q.
    change (inject_Z 600) with 600%Q. field. }
  assert (Hrange : (0 ≤ x)%Qc /\ (x < Q2Qc (1 # 10))%Qc).
  { unfold Qcle, Qclt in *. rewrite Hx.
    rewrite this_of_Z in Hm60. change (inject_Z 60) with 60%Q in Hm60.
    change (this 0%Qc) with 0%Q in *.
    change (this (Q2Qc (1 # 10))) with (1 # 10)%Q. split; lra. }
  destruct Hrange as [Hx0 Hx1].
  rewrite float_mod_unit; [split; assumption|exact Hx0|].
  eapply Qclt_trans; [exact Hx1|reflexivity].
Qed.

(** Below one tenth of the way, a path of at most 10 segments is still in
    its first segment. *)
Lemma first_segment_when_short (p : Qc) (n : Z) :
  (0 ≤ p)%Qc -> (p < Q2Qc (1 # 10))%Qc -> 1 <= n <= 10 ->
  Dashboard.current_segment p n = 0.
Proof.
  intros Hp0 Hp1 Hn.
  destruct (current_segment_range p n Hp0) as [_ ->]; [lia|].
  assert (Hfloor : Qfloor (p * Qc_of_Z n)%Qc = 0).
  { assert (Hn1 : (1 <= inject_Z n)%Q)
      by (change 1%Q with (inject_Z 1); rewrite <- Zle_Qle; lia).
    assert (Hn10 : (inject_Z n <= 10)%Q)
      by (change 10%Q with (inject_Z 10); rewrite <- Zle_Qle; lia).
    unfold Qcle, Qclt in *. change (this 0%Qc) with 0%Q in *.
    change (this (Q2Qc (1 # 10))) with (1 # 10)%Q in *.
    apply Qfloor_unit; rewrite this_mult, this_of_Z; nra. }
  rewrite Hfloor. lia.
Qed.
End Simulator.

(** ** Nearest-neighbour ordering *)

Section NearestNeighbour.





Variable pow_half : Qc -> Qc.

(** A strictly increasing square root keeps all distances apart. *)
Lemma increasing_separates_distances (l : list TransportStop) :
  (forall x y, (x < y)%Qc -> (pow_half x < pow_half y)%Qc) ->
  separates_distances pow_half l.
Proof.
  intros Hmono s t u _ _ _ Hlt. apply Hmono, Hlt.
Qed.


End NearestNeighbour.





(** C7: for every route path of at least 2 points with its parallel Stop
    sequence and a non-zero vehicle count, the simulator returns a snapshot
    whose last and next stops are the start and end stops of the current
    segment whatever the status, and whose status follows the local
    progress: below 0.1 it is "At Stop" with ETA 0 at the start stop; above
    0.9 it is "Arriving" with ETA 1 at the end stop; otherwise it is
    "In Transit" with an integer ETA in [2, 8] at the start stop. *)
Theorem simulate_vehicle_position_status
    (now : Qc) (draw : Z) (route_points : list (Qc * Qc))
    (route_stops : list TransportStop) (vehicle_id total_vehicles : Z) :
  2 <= len route_points ->
  len route_stops = len route_points ->
  total_vehicles <> 0 ->
  exists progress snap start_stop end_stop,
    Dashboard.progress now vehicle_id total_vehicles = Return progress
    /\ Dashboard.simulate_vehicle_position now draw route_points route_stops
         vehicle_id total_vehicles = Return (Some snap)
    /\ let segment :=
         Dashboard.current_segment progress (Dashboard.total_segments route_points) in
       let local_progress :=
         Dashboard.local_progress progress
           (Dashboard.total_segments route_points) segment in
       route_stops !! Z.to_nat segment = Some start_stop
       /\ route_stops !! Z.to_nat (segment + 1) = Some end_stop
       /\ last_stop snap = name start_stop
       /\ next_stop snap = name end_stop
       /\ ((local_progress < Q2Qc (1 # 10))%Qc ->
           status snap = "At Stop" /\ eta snap = 0
           /\ current_stop snap = name start_stop)
       /\ ((Q2Qc (9 # 10) < local_progress)%Qc ->
           status snap = "Arriving" /\ eta snap = 1
           /\ current_stop snap = name end_stop)
       /\ ((Q2Qc (1 # 10) ≤ local_progress)%Qc ->
           (local_progress ≤ Q2Qc (9 # 10))%Qc ->
           status snap = "In Transit" /\ 2 <= eta snap <= 8
           /\ current_stop snap = name start_stop).
Proof.
  intros Hlen Hpar Hveh.
  destruct (progress_returns now vehicle_id total_vehicles Hveh) as (p & Hprog & Hp0 & _).
  destruct (simulate_returns now draw route_points route_stops vehicle_id
              total_vehicles p Hprog Hp0 Hlen Hpar)
    as (start_stop & end_stop & p1 & p2 & Hs1 & Hs2 & _ & _ & Hsim).
  eexists p, _, start_stop, end_stop.
  split; [exact Hprog|]. split; [exact Hsim|]. cbv zeta.
  set (lp := Dashboard.local_progress p (Dashboard.total_segments route_points)
               (Dashboard.current_segment p (Dashboard.total_segments route_points))).
  split; [exact Hs1|]. split; [exact Hs2|]. cbn [last_stop next_stop status eta current_stop].
  split; [reflexivity|]. split; [reflexivity|]. split; [|split].
  - intros Hlow. destruct (decide (lp < Q2Qc (1 # 10))%Qc); [|contradiction].
    repeat split.
  - intros Hhigh. destruct (decide (lp < Q2Qc (1 # 10))%Qc) as [Hlow|_].
    + exfalso. apply (Qclt_not_le _ _ (Qclt_trans _ _ _ Hhigh Hlow)). discriminate.
    + destruct (decide (Q2Qc (9 # 10) < lp)%Qc); [|contradiction]. repeat split.
  - intros Hge Hle.
    destruct (decide (lp < Q2Qc (1 # 10))%Qc) as [Hlow|_];
      [exfalso; apply (Qclt_not_le _ _ Hlow), Hge|].
    destruct (decide (Q2Qc (9 # 10) < lp)%Qc) as [Hhigh|_];
      [exfalso; apply (Qclt_not_le _ _ Hhigh), Hle|].
    split; [reflexivity|]. split; [|reflexivity].
    unfold randint. pose proof (Z.mod_pos_bound draw (8 - 2 + 1)). lia.
Qed.

Lemma simulate_vehicle_position_status_witness :
  exists progress snap start_stop end_stop,
    Dashboard.progress (Qc_of_Z 30) 1 2 = Return progress
    /\ Dashboard.simulate_vehicle_position (Qc_of_Z 30) 4 (line_points 3)
         (line_stops 3) 1 2 = Return (Some snap)
    /\ let segment :=
         Dashboard.current_segment progress (Dashboard.total_segments (line_points 3)) in
       let local_progress :=
         Dashboard.local_progress progress
           (Dashboard.total_segments (line_points 3)) segment in
       line_stops 3 !! Z.to_nat segment = Some start_stop
       /\ line_stops 3 !! Z.to_nat (segment + 1) = Some end_stop
       /\ last_stop snap = name start_stop
       /\ next_stop snap = name end_stop
       /\ ((local_progress < Q2Qc (1 # 10))%Qc ->
           status snap = "At Stop" /\ eta snap = 0
           /\ current_stop snap = name start_stop)
       /\ ((Q2Qc (9 # 10) < local_progress)%Qc ->
           status snap = "Arriving" /\ eta snap = 1
           /\ current_stop snap = name end_stop)
       /\ ((Q2Qc (1 # 10) ≤ local_progress)%Qc ->
           (local_progress ≤ Q2Qc (9 # 10))%Qc ->
           status snap = "In Transit" /\ 2 <= eta snap <= 8
           /\ current_stop snap = name start_stop).
Proof.
  apply (simulate_vehicle_position_status (Qc_of_Z 30) 4 (line_points 3)
           (line_stops 3) 1 2).
  - unfold len. simpl. lia.
  - reflexivity.
  - lia.
Defined.

(** C8 (amended): for a path of at least 2 points with its parallel Stop
    sequence and a non-zero vehicle count, the simulator's position is the
    linear interpolation, at the local progress, between the two ends of
    the segment of index floor(progress * segment_count) clamped to the
    last segment, where progress is
    ((vehicle_index / total_vehicles) + ((time mod 60) / 600)) mod 1; when
    the local progress is 0 the position is exactly the start point of that
    segment; and for vehicle_index = 0 and total_vehicles = 1 on a path of
    at most 10 segments that segment is the first one, so that the position
    at local progress 0 is exactly the first path point. *)
Theorem simulate_vehicle_position_interpolates
    (now : Qc) (draw : Z) (route_points : list (Qc * Qc))
    (route_stops : list TransportStop) (vehicle_id total_vehicles : Z) :
  2 <= len route_points ->
  len route_stops = len route_points ->
  total_vehicles <> 0 ->
  let progress := progress_stated now vehicle_id total_vehicles in
  let segment_count := len route_points - 1 in
  let segment := segment_stated progress segment_count in
  let local_progress := (progress * Qc_of_Z segment_count - Qc_of_Z segment)%Qc in
  exists snap p1 p2,
    Dashboard.simulate_vehicle_position now draw route_points route_stops
      vehicle_id total_vehicles = Return (Some snap)
    /\ route_points !! Z.to_nat segment = Some p1
    /\ route_points !! Z.to_nat (segment + 1) = Some p2
    /\ position snap = interpolate p1 p2 local_progress
    /\ (local_progress = Qc_of_Z 0 -> position snap = p1)
    /\ (vehicle_id = 0 -> total_vehicles = 1 -> segment_count <= 10 ->
        segment = 0
        /\ (local_progress = Qc_of_Z 0 -> head route_points = Some (position snap))).
Proof.
  intros Hlen Hpar Hveh progress segment_count segment local_progress.
  destruct (progress_returns now vehicle_id total_vehicles Hveh) as (p & Hprog & Hp0 & _).
  assert (Hp : p = progress).
  { unfold Dashboard.progress, int_truediv in Hprog.
    destruct (decide (total_vehicles = 0)); [contradiction|].
    cbn [bind] in Hprog. inversion Hprog as [Heq].
    unfold progress, progress_stated.
    rewrite <- (float_mod_modulo now), <- float_mod_modulo. reflexivity. }
  destruct (simulate_returns now draw route_points route_stops vehicle_id
              total_vehicles p Hprog Hp0 Hlen Hpar)
    as (start_stop & end_stop & p1 & p2 & _ & _ & Hp1 & Hp2 & Hsim).
  assert (Hseg : Dashboard.current_segment p (Dashboard.total_segments route_points)
                 = segment).
  { unfold segment, segment_stated, segment_count, Dashboard.total_segments.
    rewrite <- Hp. apply current_segment_range; [exact Hp0|lia]. }
  rewrite Hseg in Hp1, Hp2, Hsim.
  assert (Hlp : Dashboard.local_progress p (Dashboard.total_segments route_points) segment
                = local_progress).
  { unfold Dashboard.local_progress, local_progress, Dashboard.total_segments, segment_count.
    rewrite Hp. reflexivity. }
  rewrite Hlp in Hsim.
  eexists _, p1, p2. split; [exact Hsim|]. split; [exact Hp1|]. split; [exact Hp2|].
  cbn [position]. split; [reflexivity|].
  assert (Hstart : local_progress = Qc_of_Z 0 ->
                   ((p1.1 + (p2.1 - p1.1) * local_progress)%Qc,
                    (p1.2 + (p2.2 - p1.2) * local_progress)%Qc) = p1).
  { intros ->. destruct p1 as [lat1 lon1]. cbn [fst snd].
    rewrite Z2Qc_inj_0. f_equal; ring. }
  split; [exact Hstart|].
  intros -> -> Hshort.
  destruct (progress_single_vehicle now) as (p' & Hprog' & _ & Hp1').
  rewrite Hprog in Hprog'. inversion Hprog'; subst p'.
  assert (Hzero : segment = 0).
  { rewrite <- Hseg. unfold Dashboard.total_segments.
    apply first_segment_when_short; [exact Hp0|exact Hp1'|].
    unfold segment_count in Hshort. lia. }
  split; [exact Hzero|]. intros Hlocal. rewrite (Hstart Hlocal).
  rewrite Hzero in Hp1. destruct route_points; [discriminate|].
  simpl in Hp1. simpl. exact Hp1.
Qed.

Lemma simulate_vehicle_position_interpolates_witness :
  let progress := progress_stated (Qc_of_Z 30) 0 1 in
  let segment_count := len (line_points 3) - 1 in
  let segment := segment_stated progress segment_count in
  let local_progress := (progress * Qc_of_Z segment_count - Qc_of_Z segment)%Qc in
  exists snap p1 p2,
    Dashboard.simulate_vehicle_position (Qc_of_Z 30) 4 (line_points 3)
      (line_stops 3) 0 1 = Return (Some snap)
    /\ line_points 3 !! Z.to_nat segment = Some p1
    /\ line_points 3 !! Z.to_nat (segment + 1) = Some p2
    /\ position snap = interpolate p1 p2 local_progress
    /\ (local_progress = Qc_of_Z 0 -> position snap = p1)
    /\ (0 = 0 -> 1 = 1 -> segment_count <= 10 ->
        segment = 0
        /\ (local_progress = Qc_of_Z 0
            -> head (line_points 3) = Some (position snap))).
Proof.
  apply (simulate_vehicle_position_interpolates (Qc_of_Z 30) 4 (line_points 3)
           (line_stops 3) 0 1).
  - unfold len. simpl. lia.
  - reflexivity.
  - lia.
Defined.

(** C8 as stated fails on a path of more than 10 segments: with one
    vehicle, 12 segments and the clock at 50 seconds the progress is 1/12,
    the local progress is 0 in the second segment, and the position is the
    second path point, not the first. *)
Lemma local_progress_zero_away_from_first_point :
  exists progress snap,
    Dashboard.progress (Qc_of_Z 50) 0 1 = Return progress
    /\ Dashboard.simulate_vehicle_position (Qc_of_Z 50) 4 (line_points 13)
         (line_stops 13) 0 1 = Return (Some snap)
    /\ Dashboard.local_progress progress (Dashboard.total_segments (line_points 13))
         (Dashboard.current_segment progress
            (Dashboard.total_segments (line_points 13)))
       = Qc_of_Z 0
    /\ line_points 13 !! 1%nat = Some (position snap)
    /\ head (line_points 13) <> Some (position snap).
Proof.
  eexists _, _. split; [reflexivity|]. split; [reflexivity|].
  split; [apply Qc_is_canon; reflexivity|].
  split.
  - simpl. f_equal. f_equal; apply Qc_is_canon; reflexivity.
  - intros H. vm_compute in H. discriminate H.
Qed.

Lemma get_statistics_success_rate_witness :
  let st :=
    snd (fst (fetch_transport_stops
                (fun _ _ _ _ => JsonObject [bus_stop_node; way_element; bus_stop_node])
                initial_stats (Qc_of_Z 0) (Qc_of_Z 0) 2000)) in
  exists rate,
    get_statistics st = Return {| stats := st; success_rate := rate |}
    /\ (0 < stops_processed st + stops_failed st ->
        rate = (Qc_of_Z (stops_processed st)
                / Qc_of_Z (stops_processed st + stops_failed st))%Qc)
    /\ (stops_processed st = 0 /\ stops_failed st = 0 -> rate = Qc_of_Z 0)
    /\ (0 < stops_processed st + stops_failed st
        \/ (stops_processed st = 0 /\ stops_failed st = 0)).
Proof.
  apply (get_statistics_success_rate
           (snd (fst (fetch_transport_stops
                        (fun _ _ _ _ =>
                           JsonObject [bus_stop_node; way_element; bus_stop_node])
                        initial_stats (Qc_of_Z 0) (Qc_of_Z 0) 2000)))).
  apply reachable_fetch, reachable_init.
Defined.

(** ** The two dashboards *)

Section Agreement.

Variable pow_half : Qc -> Qc.

Lemma order_loop_agree (fuel : nat) (sorted_stops remaining : list TransportStop) :
  Dashboard.order_loop pow_half fuel sorted_stops remaining
  = DashboardV5.order_loop pow_half fuel sorted_stops remaining.
Proof.
  revert sorted_stops remaining.
  induction fuel as [|fuel IH]; intros sorted_stops remaining;
    destruct remaining as [|r rs]; [reflexivity|reflexivity|reflexivity|].
  cbn [Dashboard.order_loop DashboardV5.order_loop].
  destruct (py_index sorted_stops (-1)) as [last|e]; [|reflexivity].
  change (DashboardV5.distance_key pow_half last)
    with (Dashboard.distance_key pow_half last).
  destruct (py_min_by (Dashboard.distance_key pow_half last) (r :: rs))
    as [nearest|e]; [|reflexivity].
  destruct (list_remove nearest (r :: rs)) as [remaining|e]; [|reflexivity].
  apply IH.
Qed.

End Agreement.

(** C10: the two dashboard files compute the same functions.  For every
    Stop collection and route identifier (and every realisation of the
    square root and bound on the loop) [generate_route_polyline] returns
    the same points and ordered stops in both, and for every route path,
    Stop sequence, vehicle index, vehicle count, clock value and random
    draw [simulate_vehicle_position] returns the same snapshot in both. *)
Theorem dashboards_agree
    (pow_half : Qc -> Qc) (fuel : nat) (stops : list TransportStop)
    (route_name : string) (now : Qc) (draw : Z)
    (route_points : list (Qc * Qc)) (route_stops : list TransportStop)
    (vehicle_id total_vehicles : Z) :
  Dashboard.generate_route_polyline pow_half fuel stops route_name
  = DashboardV5.generate_route_polyline pow_half fuel stops route_name
  /\ Dashboard.simulate_vehicle_position now draw route_points route_stops
       vehicle_id total_vehicles
     = DashboardV5.simulate_vehicle_position now draw route_points route_stops
         vehicle_id total_vehicles.
Proof.
  split.
  - unfold Dashboard.generate_route_polyline, DashboardV5.generate_route_polyline.
    destruct (len _ <? 2); [reflexivity|].
    destruct (List.filter _ stops) as [|first remaining]; [reflexivity|].
    rewrite order_loop_agree. reflexivity.
  - reflexivity.
Qed.

(** * Further properties of the code *)

(** ** Classification and normalization, further *)

(** X1: the classification reads six keys only ("highway", "railway",
    "amenity", "public_transport", "bus", "tram"): two attribute bags that
    agree on them are classified alike, whatever else they hold. *)
Theorem from_osm_tags_reads_six_keys (tags tags' : Tags) :
  (forall key,
      key ∈ ["highway"; "railway"; "amenity"; "public_transport"; "bus"; "tram"] ->
      tags_get tags key = tags_get tags' key) ->
  from_osm_tags tags = from_osm_tags tags'.
Proof.
  intros Hsame. unfold from_osm_tags, tags_get_default.
  rewrite (Hsame "highway"), (Hsame "railway"), (Hsame "amenity"),
    (Hsame "public_transport"), (Hsame "bus"), (Hsame "tram");
    [reflexivity|..]; repeat constructor.
Qed.

Lemma from_osm_tags_reads_six_keys_witness :
  from_osm_tags [("name", "Se"); ("railway", "station"); ("operator", "Metro")]
  = from_osm_tags [("railway", "station"); ("wheelchair", "yes")].
Proof.
  apply (from_osm_tags_reads_six_keys
           [("name", "Se"); ("railway", "station"); ("operator", "Metro")]
           [("railway", "station"); ("wheelchair", "yes")]).
  intros key Hkey. repeat (apply elem_of_cons in Hkey as [->|Hkey]; [reflexivity|]).
  inversion Hkey.
Defined.

(** X2: no attribute bag is classified as LIGHT_RAIL, and a bag that has
    none of the keys "highway", "railway", "amenity" and "public_transport"
    is unclassified. *)
Theorem from_osm_tags_never_light_rail (tags : Tags) :
  from_osm_tags tags <> Some LIGHT_RAIL
  /\ (tags_get tags "highway" = None -> tags_get tags "railway" = None ->
      tags_get tags "amenity" = None -> tags_get tags "public_transport" = None ->
      from_osm_tags tags = None).
Proof.
  unfold from_osm_tags. split.
  - repeat match goal with
           | |- context [if ?b then _ else _] => destruct b
           end; discriminate.
  - intros -> -> -> ->. reflexivity.
Qed.

Section StripFacts.

(** [rstrip] cuts at the end only: what it returns is empty or ends with a
    character that is not a space. *)
Lemma rstrip_idemp (s : string) : PyStr.rstrip (PyStr.rstrip s) = PyStr.rstrip s.
Proof.
  induction s as [|c s IH]; [reflexivity|]. simpl.
  destruct (PyStr.rstrip s) as [|c' r] eqn:Hr.
  - destruct (PyStr.isspace c) eqn:Hc; [reflexivity|]. simpl. rewrite Hc. reflexivity.
  - simpl. simpl in IH. destruct (PyStr.rstrip r) as [|c'' r'] eqn:Hr'.
    + destruct (PyStr.isspace c'); [discriminate|]. rewrite IH. reflexivity.
    + rewrite IH. reflexivity.
Qed.

Lemma rstrip_head (c : ascii) (s : string) :
  PyStr.isspace c = false ->
  exists r, PyStr.rstrip (String c s) = String c r.
Proof.
  intros Hc. simpl. destruct (PyStr.rstrip s); [rewrite Hc|]; eexists; reflexivity.
Qed.

Lemma lstrip_head (s : string) :
  PyStr.lstrip s = EmptyString
  \/ exists c r, PyStr.lstrip s = String c r /\ PyStr.isspace c = false.
Proof.
  induction s as [|c s IH]; [left; reflexivity|]. simpl.
  destruct (PyStr.isspace c) eqn:Hc; [exact IH|]. right. eexists _, _. split; [reflexivity|exact Hc].
Qed.

(** Stripping a stripped string changes nothing. *)
Lemma strip_idemp (s : string) : PyStr.strip (PyStr.strip s) = PyStr.strip s.
Proof.
  unfold PyStr.strip. destruct (lstrip_head s) as [->|(c & r & -> & Hc)]; [reflexivity|].
  destruct (rstrip_head c r Hc) as [r' Hr]. rewrite Hr.
  assert (Hl : PyStr.lstrip (String c r') = String c r') by (simpl; rewrite Hc; reflexivity).
  rewrite Hl, <- Hr. apply rstrip_idemp.
Qed.

End StripFacts.

Section RouteEntries.

Lemma keep_first_seen_subset (l seen : list string) (x : string) :
  x ∈ keep_first_seen seen l -> x ∈ l.
Proof.
  revert seen. induction l as [|y l IH]; intros seen; simpl; [exact id|].
  destruct (str_in y seen).
  - intros Hx. apply elem_of_cons. right. eapply IH, Hx.
  - intros Hx. apply elem_of_cons in Hx as [->|Hx]; [constructor|].
    apply elem_of_cons. right. eapply IH, Hx.
Qed.

Lemma truthy_nonempty (s : string) : PyStr.truthy s = true <-> s <> EmptyString.
Proof. destruct s; simpl; split; congruence. Qed.

End RouteEntries.

(** X3: every route identifier that extraction returns is a non-empty string
    without surrounding whitespace, and is the trimmed form of a segment of
    the "lines" value or of the value of a key containing "route"; so a bag
    with no "lines" key and no such key yields no route. *)
Theorem extract_routes_entries (tags : Tags) (r : string) :
  r ∈ _extract_routes tags ->
  r <> EmptyString
  /\ PyStr.strip r = r
  /\ ((exists v segment,
          tags_get tags "lines" = Some v
          /\ segment ∈ PyStr.split ";" v /\ r = PyStr.strip segment)
      \/ (exists key value,
             (key, value) ∈ tags
             /\ PyStr.contains "route" (PyStr.lower key) = true
             /\ r = PyStr.strip value)).
Proof.
  rewrite extract_routes_collected, dict_fromkeys_keep_first_seen.
  intros Hr. unfold slice_to in Hr.
  apply (fun H => elem_of_submseteq _ _ _ H (submseteq_take _ 5)) in Hr.
  apply keep_first_seen_subset in Hr.
  apply list_elem_of_In, in_map_iff in Hr as (x & <- & Hx).
  apply filter_In in Hx as [Hx Hne].
  split; [apply truthy_nonempty, Hne|]. split; [apply strip_idemp|].
  apply in_app_or in Hx as [Hx|Hx].
  - left. unfold lines_segments in Hx.
    destruct (tags_get tags "lines") as [v|]; [|destruct Hx].
    exists v, x. split; [reflexivity|]. split; [apply list_elem_of_In, Hx|reflexivity].
  - right. unfold route_values in Hx.
    apply in_map_iff in Hx as ([key value] & <- & Hkv).
    apply filter_In in Hkv as [Hkv Hsel]. simpl in Hsel.
    apply andb_prop in Hsel as [Hsel _]. apply andb_prop in Hsel as [_ Hroute].
    exists key, value. split; [apply list_elem_of_In, Hkv|]. split; [exact Hroute|reflexivity].
Qed.

Lemma extract_routes_entries_witness :
  "177H" <> EmptyString
  /\ PyStr.strip "177H" = "177H"
  /\ ((exists v segment,
          tags_get [("lines", "107M; 177H"); ("route_ref", "9")] "lines" = Some v
          /\ segment ∈ PyStr.split ";" v /\ "177H" = PyStr.strip segment)
      \/ (exists key value,
             (key, value) ∈ [("lines", "107M; 177H"); ("route_ref", "9")]
             /\ PyStr.contains "route" (PyStr.lower key) = true
             /\ "177H" = PyStr.strip value)).
Proof.
  apply (extract_routes_entries [("lines", "107M; 177H"); ("route_ref", "9")] "177H").
  vm_compute. apply list_elem_of_In. simpl. tauto.
Defined.

Section StopInvariant.

Lemma extract_routes_nodup_short (tags : Tags) :
  NoDup (_extract_routes tags) /\ (length (_extract_routes tags) <= 5)%nat.
Proof.
  rewrite extract_routes_collected, dict_fromkeys_keep_first_seen. split.
  - eapply sublist_NoDup; [apply keep_first_seen_fresh|apply sublist_take].
  - rewrite length_take. lia.
Qed.

Lemma from_osm_tags_not_light_rail (tags : Tags) :
  from_osm_tags tags <> Some LIGHT_RAIL.
Proof.
  unfold from_osm_tags.
  repeat match goal with
         | |- context [if ?b then _ else _] => destruct b
         end; discriminate.
Qed.

End StopInvariant.

(** X4: every Stop that normalization returns comes from a node; its type is
    the classification of the node's tags and is never LIGHT_RAIL; its id,
    latitude and longitude are the element's; and its route list is the
    extraction from the tags, free of duplicates and of at most 5 entries. *)
Theorem from_osm_element_stop (element : Element) (stop : TransportStop) :
  from_osm_element element = Return (Some stop) ->
  el_type element = Some "node"
  /\ from_osm_tags (default [] (el_tags element)) = Some (transport_type stop)
  /\ transport_type stop <> LIGHT_RAIL
  /\ (forall id : Z, osm_id stop = pretty id <-> el_id element = Some id)
  /\ el_lat element = Some (latitude stop)
  /\ el_lon element = Some (longitude stop)
  /\ metadata stop = default [] (el_tags element)
  /\ routes stop = _extract_routes (metadata stop)
  /\ NoDup (routes stop)
  /\ (length (routes stop) <= 5)%nat.
Proof.
  unfold from_osm_element.
  destruct (el_type element) as [type|]; simpl; [|discriminate].
  destruct (String.eqb type "node") eqn:Htype; simpl; [|discriminate].
  apply String.eqb_eq in Htype. subst type.
  replace (match el_tags element with Some t => t | None => [] end)
    with (default [] (el_tags element)) by (destruct (el_tags element); reflexivity).
  set (tags := default [] (el_tags element)).
  destruct (from_osm_tags tags) as [transport_type|] eqn:Hclass; [|discriminate].
  destruct (el_id element) as [id|]; [|discriminate].
  destruct (el_lat element) as [lat|]; [|discriminate].
  destruct (el_lon element) as [lon|]; [|discriminate].
  simpl. intros Hstop. inversion Hstop; subst stop; clear Hstop. simpl.
  split; [reflexivity|]. split; [reflexivity|].
  split; [intros ->; apply (from_osm_tags_not_light_rail tags), Hclass|].
  split.
  { intros id'. split.
    - intros Hid. apply (inj pretty) in Hid. congruence.
    - intros Hid. inversion Hid. reflexivity. }
  repeat (split; [reflexivity|]). apply extract_routes_nodup_short.
Qed.

Lemma from_osm_element_stop_witness :
  exists stop,
    from_osm_element bus_stop_node = Return (Some stop)
    /\ el_type bus_stop_node = Some "node"
    /\ from_osm_tags (default [] (el_tags bus_stop_node)) = Some (transport_type stop)
    /\ transport_type stop <> LIGHT_RAIL
    /\ (forall id : Z, osm_id stop = pretty id <-> el_id bus_stop_node = Some id)
    /\ el_lat bus_stop_node = Some (latitude stop)
    /\ el_lon bus_stop_node = Some (longitude stop)
    /\ metadata stop = default [] (el_tags bus_stop_node)
    /\ routes stop = _extract_routes (metadata stop)
    /\ NoDup (routes stop)
    /\ (length (routes stop) <= 5)%nat.
Proof.
  eexists. split; [reflexivity|].
  apply (from_osm_element_stop bus_stop_node). reflexivity.
Defined.

(** ** The fetch, further *)

Section FetchFacts.

Lemma parse_elements_frame elements stops st r st' :
  parse_elements elements stops st = (r, st') ->
  api_calls st' = api_calls st /\ errors st' = errors st.
Proof.
  revert stops st. induction elements as [|element rest IH]; intros stops st; simpl.
  - intros H. inversion H; subst. split; reflexivity.
  - destruct (from_osm_element element) as [[stop|]|e].
    + intros H. apply IH in H. exact H.
    + intros H. apply IH in H. exact H.
    + intros H. inversion H; subst. split; reflexivity.
Qed.

Lemma try_body_frame resp st :
  api_calls (snd (try_body resp st)) = api_calls st
  /\ errors (snd (try_body resp st)) = errors st.
Proof.
  destruct resp as [e| | | |elements]; simpl; try (split; reflexivity).
  destruct (parse_elements elements [] st) as [r st'] eqn:Hparse.
  apply parse_elements_frame in Hparse. exact Hparse.
Qed.

Lemma fetch_attempts_frame net attempts st trace :
  let st' := snd (fst (fetch_attempts net attempts st trace)) in
  api_calls st' = api_calls st /\ errors st' = errors st.
Proof.
  revert st trace. induction attempts as [|attempt rest IH]; intros st trace.
  - split; reflexivity.
  - destruct (retryable (try_body (net attempt) st)) eqn:Hretry.
    + destruct (Z.of_nat attempt <? max_retries - 1) eqn:Hmore.
      * rewrite (fetch_attempts_retry _ _ _ _ _ Hretry Hmore). apply IH.
      * rewrite (fetch_attempts_last _ _ _ _ _ Hmore). apply try_body_frame.
    + rewrite (fetch_attempts_stop _ _ _ _ _ Hretry). apply try_body_frame.
Qed.

(** The call ends with the outcome of the first attempt that is not
    retried. *)
Lemma fetch_ends_at net st latitude longitude radius (i : nat) :
  let outcome := fun j => try_body (net latitude longitude radius j) (incr_api_calls st) in
  (i < 3)%nat ->
  (forall j, (j < i)%nat -> retryable (outcome j) = true) ->
  retryable (outcome i) = false ->
  fetch_transport_stops net st latitude longitude radius
  = (outcome i, attempts_trace i).
Proof.
  intros outcome Hi Hbefore Hend. unfold fetch_transport_stops.
  change (seq 0 (Z.to_nat max_retries)) with [0; 1; 2]%nat.
  destruct i as [|[|[|i]]]; [| | |lia].
  - rewrite (fetch_attempts_stop _ 0%nat _ _ _ Hend). reflexivity.
  - rewrite (fetch_attempts_retry _ 0%nat _ _ _ (Hbefore 0%nat ltac:(lia)) eq_refl).
    rewrite (fetch_attempts_stop _ 1%nat _ _ _ Hend). reflexivity.
  - rewrite (fetch_attempts_retry _ 0%nat _ _ _ (Hbefore 0%nat ltac:(lia)) eq_refl).
    rewrite (fetch_attempts_retry _ 1%nat _ _ _ (Hbefore 1%nat ltac:(lia)) eq_refl).
    rewrite (fetch_attempts_stop _ 2%nat _ _ _ Hend). reflexivity.
Qed.

(** On elements that carry their geometry the loop returns the accepted
    ones. *)
Lemma parse_elements_accepted elements stops st :
  Forall has_geometry elements ->
  parse_elements elements stops st
  = (Return (stops ++ accepted elements),
     {| stops_processed := stops_processed st + len (accepted elements);
        stops_failed := stops_failed st + (len elements - len (accepted elements));
        api_calls := api_calls st;
        errors := errors st |}).
Proof.
  unfold len. intros Hgeo. revert stops st.
  induction Hgeo as [|element rest Hel _ IH]; intros stops st.
  - simpl. rewrite app_nil_r. destruct st; simpl. do 2 f_equal; lia.
  - simpl. unfold accepted in *. simpl.
    destruct (from_osm_element_returns element Hel) as [[stop|] ->].
    + rewrite IH. simpl. rewrite <- app_assoc. simpl. do 2 f_equal; lia.
    + rewrite IH. simpl. do 2 f_equal; lia.
Qed.

(** Up to an element that raises, the loop has counted the elements before
    it. *)
Lemma parse_elements_raise_after prefix bad rest e stops st :
  Forall has_geometry prefix ->
  from_osm_element bad = Raise e ->
  parse_elements (prefix ++ bad :: rest) stops st
  = (Raise e,
     {| stops_processed := stops_processed st + len (accepted prefix);
        stops_failed := stops_failed st + (len prefix - len (accepted prefix));
        api_calls := api_calls st;
        errors := errors st |}).
Proof.
  unfold len. intros Hgeo Hbad. revert stops st.
  induction Hgeo as [|element prefix Hel _ IH]; intros stops st.
  - simpl. rewrite Hbad. destruct st; simpl. do 2 f_equal; lia.
  - simpl. unfold accepted in *. simpl.
    destruct (from_osm_element_returns element Hel) as [[stop|] ->].
    + rewrite IH. simpl. do 2 f_equal; lia.
    + rewrite IH. simpl. do 2 f_equal; lia.
Qed.

End FetchFacts.

(** X5: a call counts as one API call whatever the number of attempts and
    whatever its end, it never touches the error list, and the two stop
    counters never go down. *)
Theorem fetch_transport_stops_counters
    (net : Qc -> Qc -> Z -> nat -> Response) (st : Stats)
    (latitude longitude : Qc) (radius : Z) :
  let st' := snd (fst (fetch_transport_stops net st latitude longitude radius)) in
  api_calls st' = api_calls st + 1
  /\ errors st' = errors st
  /\ stops_processed st <= stops_processed st'
  /\ stops_failed st <= stops_failed st'.
Proof.
  unfold fetch_transport_stops.
  pose proof (fetch_attempts_frame (net latitude longitude radius)
                (seq 0 (Z.to_nat max_retries)) (incr_api_calls st) []) as [Hcalls Herr].
  pose proof (fetch_attempts_counters (net latitude longitude radius)
                (seq 0 (Z.to_nat max_retries)) (incr_api_calls st) []) as [Hp Hf].
  cbv zeta in *. rewrite Hcalls, Herr. simpl in *. repeat split; (reflexivity || lia).
Qed.

(** X6: when the first attempt that is not retried answers with elements
    that all carry their geometry, the call returns the accepted elements in
    order, and the counters grow by the number accepted and the number
    rejected. *)
Theorem fetch_transport_stops_success
    (net : Qc -> Qc -> Z -> nat -> Response) (st : Stats)
    (latitude longitude : Qc) (radius : Z) (i : nat) (elements : list Element) :
  (i < 3)%nat ->
  (forall j, (j < i)%nat ->
     retryable (try_body (net latitude longitude radius j) (incr_api_calls st)) = true) ->
  net latitude longitude radius i = JsonObject elements ->
  Forall has_geometry elements ->
  fetch_transport_stops net st latitude longitude radius
  = (Return (accepted elements),
     {| stops_processed := stops_processed st + len (accepted elements);
        stops_failed := stops_failed st + (len elements - len (accepted elements));
        api_calls := api_calls st + 1;
        errors := errors st |},
     attempts_trace i).
Proof.
  intros Hi Hbefore Hresp Hgeo.
  assert (Hout : try_body (net latitude longitude radius i) (incr_api_calls st)
                 = (Return (accepted elements),
                    {| stops_processed := stops_processed st + len (accepted elements);
                       stops_failed :=
                         stops_failed st + (len elements - len (accepted elements));
                       api_calls := api_calls st + 1;
                       errors := errors st |})).
  { rewrite Hresp. simpl. rewrite (parse_elements_accepted elements [] _ Hgeo). reflexivity. }
  rewrite (fetch_ends_at net st latitude longitude radius i Hi Hbefore).
  - rewrite Hout. reflexivity.
  - unfold retryable. rewrite Hout. reflexivity.
Qed.

Lemma fetch_transport_stops_success_witness :
  fetch_transport_stops
    (fun _ _ _ attempt =>
       match attempt with
       | O => PostRaises Timeout
       | _ => JsonObject [bus_stop_node; unclassified_node; bus_stop_node]
       end)
    initial_stats (Qc_of_Z 0) (Qc_of_Z 0) 2000
  = (Return (accepted [bus_stop_node; unclassified_node; bus_stop_node]),
     {| stops_processed :=
          stops_processed initial_stats
          + len (accepted [bus_stop_node; unclassified_node; bus_stop_node]);
        stops_failed :=
          stops_failed initial_stats
          + (len [bus_stop_node; unclassified_node; bus_stop_node]
             - len (accepted [bus_stop_node; unclassified_node; bus_stop_node]));
        api_calls := api_calls initial_stats + 1;
        errors := errors initial_stats |},
     attempts_trace 1).
Proof.
  apply (fetch_transport_stops_success
           (fun _ _ _ attempt =>
              match attempt with
              | O => PostRaises Timeout
              | _ => JsonObject [bus_stop_node; unclassified_node; bus_stop_node]
              end)
           initial_stats (Qc_of_Z 0) (Qc_of_Z 0) 2000 1
           [bus_stop_node; unclassified_node; bus_stop_node]).
  - lia.
  - intros j Hj. destruct j; [reflexivity|lia].
  - reflexivity.
  - repeat constructor; simpl; eauto.
Defined.

(** X7: when the answering attempt meets, after elements that carry their
    geometry, an element whose conversion raises, the call raises that
    exception and returns no Stop, but the counters keep the tally of the
    elements before it. *)
Theorem fetch_transport_stops_raise_keeps_tally
    (net : Qc -> Qc -> Z -> nat -> Response) (st : Stats)
    (latitude longitude : Qc) (radius : Z) (i : nat)
    (prefix rest : list Element) (bad : Element) (e : exn) :
  (i < 3)%nat ->
  (forall j, (j < i)%nat ->
     retryable (try_body (net latitude longitude radius j) (incr_api_calls st)) = true) ->
  net latitude longitude radius i = JsonObject (prefix ++ bad :: rest) ->
  Forall has_geometry prefix ->
  from_osm_element bad = Raise e ->
  fetch_transport_stops net st latitude longitude radius
  = (Raise e,
     {| stops_processed := stops_processed st + len (accepted prefix);
        stops_failed := stops_failed st + (len prefix - len (accepted prefix));
        api_calls := api_calls st + 1;
        errors := errors st |},
     attempts_trace i).
Proof.
  intros Hi Hbefore Hresp Hgeo Hbad.
  assert (Hout : try_body (net latitude longitude radius i) (incr_api_calls st)
                 = (Raise e,
                    {| stops_processed := stops_processed st + len (accepted prefix);
                       stops_failed :=
                         stops_failed st + (len prefix - len (accepted prefix));
                       api_calls := api_calls st + 1;
                       errors := errors st |})).
  { rewrite Hresp. simpl.
    rewrite (parse_elements_raise_after prefix bad rest e [] _ Hgeo Hbad). reflexivity. }
  rewrite (fetch_ends_at net st latitude longitude radius i Hi Hbefore).
  - rewrite Hout. reflexivity.
  - unfold retryable. rewrite Hout. simpl.
    apply from_osm_element_raises in Hbad as [key ->]. reflexivity.
Qed.

Lemma fetch_transport_stops_raise_keeps_tally_witness :
  fetch_transport_stops
    (fun _ _ _ _ => JsonObject ([bus_stop_node; unclassified_node]
                                ++ node_without_lat :: [bus_stop_node]))
    initial_stats (Qc_of_Z 0) (Qc_of_Z 0) 2000
  = (Raise (KeyError "lat"),
     {| stops_processed :=
          stops_processed initial_stats + len (accepted [bus_stop_node; unclassified_node]);
        stops_failed :=
          stops_failed initial_stats
          + (len [bus_stop_node; unclassified_node]
             - len (accepted [bus_stop_node; unclassified_node]));
        api_calls := api_calls initial_stats + 1;
        errors := errors initial_stats |},
     attempts_trace 0).
Proof.
  apply (fetch_transport_stops_raise_keeps_tally
           (fun _ _ _ _ => JsonObject ([bus_stop_node; unclassified_node]
                                       ++ node_without_lat :: [bus_stop_node]))
           initial_stats (Qc_of_Z 0) (Qc_of_Z 0) 2000 0
           [bus_stop_node; unclassified_node] [bus_stop_node] node_without_lat
           (KeyError "lat")).
  - lia.
  - intros j Hj. lia.
  - reflexivity.
  - repeat constructor; simpl; eauto.
  - reflexivity.
Defined.

(** ** The metrics, further *)

Section MetricsMore.

Lemma TransportType_value_inj (t t' : TransportType) :
  TransportType_value t = TransportType_value t' -> t = t'.
Proof. destruct t, t'; simpl; intros H; try reflexivity; discriminate H. Qed.

Lemma count_if_cons {A : Type} (p : A -> bool) (x : A) (l : list A) :
  count_if p (x :: l) = (if p x then 1 else 0) + count_if p l.
Proof. unfold count_if. simpl. destruct (p x); simpl; lia. Qed.

Lemma count_if_range {A : Type} (p : A -> bool) (l : list A) :
  0 <= count_if p l <= len l.
Proof.
  unfold count_if, len. pose proof (filter_length p l). lia.
Qed.

(** The counting loop: under the value of a type, the count it started
    from plus the number of Stops of that type. *)
Lemma by_type_fold (stops : list TransportStop) (m : gmap string Z) (t : TransportType) :
  fold_left
    (fun (by_type : gmap string Z) stop =>
       let type_name := TransportType_value (transport_type stop) in
       <[type_name := default 0 (by_type !! type_name) + 1]> by_type)
    stops m !! TransportType_value t
  = match m !! TransportType_value t with
    | Some v => Some (v + count_type t stops)
    | None => if decide (count_type t stops = 0) then None
              else Some (count_type t stops)
    end.
Proof.
  unfold count_type. revert m. induction stops as [|stop stops IH]; intros m.
  - simpl. destruct (m !! TransportType_value t); [f_equal; unfold count_if; simpl; lia|].
    reflexivity.
  - cbn [fold_left]. rewrite IH, count_if_cons. clear IH.
    pose proof (count_if_range (fun s => bool_decide (transport_type s = t)) stops) as Hc.
    destruct (decide (transport_type stop = t)) as [->|Hne].
    + rewrite lookup_insert_eq, bool_decide_eq_true_2 by reflexivity.
      destruct (m !! TransportType_value t) as [v|]; simpl.
      * f_equal; lia.
      * destruct (decide (1 + _ = 0)); [lia|]. f_equal; lia.
    + rewrite lookup_insert_ne, bool_decide_eq_false_2 by
        (try exact Hne; intros Heq; apply Hne, TransportType_value_inj, Heq).
      destruct (m !! TransportType_value t); reflexivity.
Qed.

Lemma by_type_fold_other (stops : list TransportStop) (m : gmap string Z) (key : string) :
  (forall t, key <> TransportType_value t) ->
  fold_left
    (fun (by_type : gmap string Z) stop =>
       let type_name := TransportType_value (transport_type stop) in
       <[type_name := default 0 (by_type !! type_name) + 1]> by_type)
    stops m !! key
  = m !! key.
Proof.
  intros Hkey. revert m. induction stops as [|stop stops IH]; intros m; [reflexivity|].
  cbn [fold_left]. rewrite IH. apply lookup_insert_ne. intros Heq. apply (Hkey _ (eq_sym Heq)).
Qed.

Lemma count_type_total (stops : list TransportStop) :
  foldr Z.add 0 (List.map (fun t => count_type t stops) all_types) = len stops.
Proof.
  unfold count_type, len. induction stops as [|stop stops IH]; [reflexivity|].
  simpl in *. rewrite !count_if_cons.
  destruct (transport_type stop); simpl; lia.
Qed.

Lemma pct_value_returns (x total : Z) :
  total <> 0 -> pct x total = Return (pct_value x total).
Proof.
  intros Htotal. unfold pct, int_truediv, pct_value.
  destruct (decide (total = 0)); [contradiction|]. reflexivity.
Qed.

(** What [calculate_metrics] returns on a collection that is not empty. *)
Lemma calculate_metrics_nonempty (stops : list TransportStop) :
  stops <> [] ->
  calculate_metrics stops
  = Return {|
      total_stops := len stops;
      by_type :=
        fold_left
          (fun (by_type : gmap string Z) stop =>
             let type_name := TransportType_value (transport_type stop) in
             <[type_name := default 0 (by_type !! type_name) + 1]> by_type)
          stops ∅;
      accessibility :=
        foldr
          (fun field (acc : gmap string Qc) =>
             let '(count_key, pct_key, test) := field in
             <[count_key := Qc_of_Z (count_if test stops)]>
             (<[pct_key := pct_value (count_if test stops) (len stops)]> acc))
          ∅ accessibility_fields
    |}.
Proof.
  destruct stops as [|stop stops]; [congruence|]. intros _.
  unfold calculate_metrics.
  assert (Hlen : Z.of_nat (length (stop :: stops)) <> 0) by (simpl; lia).
  rewrite !(pct_value_returns _ _ Hlen). reflexivity.
Qed.

End MetricsMore.

(** X8: for every Stop collection the metrics return, as total, the number
    of Stops; under the value of each transport type the number of Stops of
    that type, the key being absent when there is none; no other key; and
    these counts add up to the total. *)
Theorem calculate_metrics_by_type (stops : list TransportStop) :
  exists m,
    calculate_metrics stops = Return m
    /\ total_stops m = len stops
    /\ (forall t,
          by_type m !! TransportType_value t
          = if decide (count_type t stops = 0) then None
            else Some (count_type t stops))
    /\ (forall key, (forall t, key <> TransportType_value t) -> by_type m !! key = None)
    /\ foldr Z.add 0 (List.map (fun t => count_type t stops) all_types) = total_stops m.
Proof.
  destruct (decide (stops = [])) as [->|Hne].
  - eexists. split; [reflexivity|]. cbn [total_stops by_type].
    split; [reflexivity|]. split; [|split; [|reflexivity]].
    + intros t. rewrite lookup_empty. reflexivity.
    + intros key _. apply lookup_empty.
  - rewrite (calculate_metrics_nonempty stops Hne). eexists. split; [reflexivity|].
    cbn [total_stops by_type]. split; [reflexivity|]. split; [|split].
    + intros t. rewrite by_type_fold, lookup_empty. reflexivity.
    + intros key Hkey. rewrite by_type_fold_other, lookup_empty by exact Hkey. reflexivity.
    + apply count_type_total.
Qed.

Section RoundingFacts.

Lemma Qccompare_half (d : Qc) :
  (d ?= Q2Qc (1 # 2))%Qc <> Lt -> (0 < d)%Qc.
Proof.
  intros Hcmp. apply Qcnot_le_lt. intros Hle. apply Hcmp.
  apply Qclt_alt. eapply Qcle_lt_trans; [exact Hle|]. reflexivity.
Qed.

(** Rounding stays between the integers that bound the number. *)
Lemma round_half_even_bounds (x : Qc) (a b : Z) :
  (Qc_of_Z a ≤ x)%Qc -> (x ≤ Qc_of_Z b)%Qc ->
  a <= round_half_even x <= b.
Proof.
  intros Ha Hb. unfold round_half_even.
  assert (Hfa : a <= Qfloor x).
  { rewrite <- (Qfloor_Z a). apply Qfloor_resp_le. exact Ha. }
  assert (Hfb : Qfloor x <= b).
  { rewrite <- (Qfloor_Z b). apply Qfloor_resp_le. exact Hb. }
  assert (Hup : (0 < x - Qc_of_Z (Qfloor x))%Qc -> Qfloor x + 1 <= b).
  { intros Hpos. assert (Hlt : (Qc_of_Z (Qfloor x) < Qc_of_Z b)%Qc).
    { eapply Qclt_le_trans; [|exact Hb].
      apply (Qcplus_lt_mono_r _ _ (- Qc_of_Z (Qfloor x))).
      rewrite Qcplus_opp_r. exact Hpos. }
    apply Z2Qc_inj_lt in Hlt. lia. }
  destruct (x - Qc_of_Z (Qfloor x) ?= Q2Qc (1 # 2))%Qc eqn:Hcmp.
  - destruct (Z.even (Qfloor x)); [lia|].
    split; [lia|]. apply Hup, Qccompare_half. rewrite Hcmp. discriminate.
  - lia.
  - split; [lia|]. apply Hup, Qccompare_half. rewrite Hcmp. discriminate.
Qed.

Lemma round_half_even_of_Z (n : Z) : round_half_even (Qc_of_Z n) = n.
Proof.
  pose proof (round_half_even_bounds (Qc_of_Z n) n n (Qcle_refl _) (Qcle_refl _)). lia.
Qed.

Lemma Qc_of_Z_div_100 (n : Z) :
  0 <= n <= 10000 ->
  (0 ≤ Qc_of_Z n / Qc_of_Z 100)%Qc /\ (Qc_of_Z n / Qc_of_Z 100 ≤ Qc_of_Z 100)%Qc.
Proof.
  intros [H0 H1]. unfold Qcle. rewrite this_div, !this_of_Z.
  change (this 0%Qc) with 0%Q. change (inject_Z 100) with 100%Q.
  assert (Hn0 : (0 <= inject_Z n)%Q) by (change 0%Q with (inject_Z 0); rewrite <- Zle_Qle; lia).
  assert (Hn1 : (inject_Z n <= 10000)%Q)
    by (change 10000%Q with (inject_Z 10000); rewrite <- Zle_Qle; lia).
  assert (Hdiv : (inject_Z n / 100 == inject_Z n * (1 # 100))%Q) by field.
  rewrite Hdiv. split; lra.
Qed.

(** Rounding moves a number by at most one half. *)
Lemma round_half_even_near (x : Qc) :
  (x - Q2Qc (1 # 2) ≤ Qc_of_Z (round_half_even x))%Qc
  /\ (Qc_of_Z (round_half_even x) ≤ x + Q2Qc (1 # 2))%Qc.
Proof.
  unfold round_half_even.
  destruct (floor_bounds x) as [Hlow Hhigh].
  assert (Hcases :
    forall r : Z, r = Qfloor x \/ r = Qfloor x + 1 ->
      (r = Qfloor x -> (this x - inject_Z (Qfloor x) <= 1 # 2)%Q) ->
      (r = Qfloor x + 1 -> (1 # 2 <= this x - inject_Z (Qfloor x))%Q) ->
      (x - Q2Qc (1 # 2) ≤ Qc_of_Z r)%Qc /\ (Qc_of_Z r ≤ x + Q2Qc (1 # 2))%Qc).
  { intros r Hr Hdown Hup. unfold Qcle.
    rewrite this_minus, this_plus, this_of_Z.
    change (this (Q2Qc (1 # 2))) with (1 # 2)%Q.
    destruct Hr as [->| ->].
    - specialize (Hdown eq_refl). split; lra.
    - specialize (Hup eq_refl). rewrite inject_Z_plus.
      change (inject_Z 1) with 1%Q. split; lra. }
  destruct (x - Qc_of_Z (Qfloor x) ?= Q2Qc (1 # 2))%Qc eqn:Hcmp;
    unfold Qccompare in Hcmp;
    change (this (Q2Qc (1 # 2))) with (1 # 2)%Q in Hcmp.
  - apply Qeq_alt in Hcmp. rewrite this_minus, this_of_Z in Hcmp.
    apply Hcases.
    + destruct (Z.even (Qfloor x)); [left|right]; reflexivity.
    + intros _. lra.
    + intros _. lra.
  - apply Qlt_alt in Hcmp. rewrite this_minus, this_of_Z in Hcmp.
    apply Hcases; [left; reflexivity|intros _; lra|intros H; lia].
  - apply Qgt_alt in Hcmp. rewrite this_minus, this_of_Z in Hcmp.
    apply Hcases; [right; reflexivity|intros H; lia|intros _; lra].
Qed.

(** Rounding to two decimals moves a number by less than one hundredth. *)
Lemma round2_near (y : Qc) :
  (y - Q2Qc (1 # 100) < round2 y)%Qc /\ (round2 y < y + Q2Qc (1 # 100))%Qc.
Proof.
  unfold round2. destruct (round_half_even_near (y * Qc_of_Z 100)%Qc) as [Hlow Hhigh].
  revert Hlow Hhigh. generalize (round_half_even (y * Qc_of_Z 100)%Qc). intros r.
  unfold Qcle, Qclt.
  rewrite !this_minus, !this_plus, this_mult, this_div, !this_of_Z.
  change (this (Q2Qc (1 # 2))) with (1 # 2)%Q.
  change (this (Q2Qc (1 # 100))) with (1 # 100)%Q.
  change (inject_Z 100) with 100%Q.
  intros Hlow Hhigh.
  assert (Hdiv : (inject_Z r / 100 == inject_Z r * (1 # 100))%Q) by field.
  rewrite Hdiv. split; lra.
Qed.

(** A share of a positive total, as a percentage rounded to two decimals,
    lies between 0 and 100; it is 0 for no Stop and 100 for all. *)
Lemma pct_value_range (x total : Z) :
  0 <= x <= total -> 0 < total ->
  (0 ≤ pct_value x total)%Qc /\ (pct_value x total ≤ Qc_of_Z 100)%Qc
  /\ (x = 0 -> pct_value x total = Qc_of_Z 0)
  /\ (x = total -> pct_value x total = Qc_of_Z 100).
Proof.
  intros Hx Htotal. unfold pct_value, round2.
  set (y := (Qc_of_Z x / Qc_of_Z total * Qc_of_Z 100 * Qc_of_Z 100)%Qc).
  assert (Hy : (Qc_of_Z 0 ≤ y)%Qc /\ (y ≤ Qc_of_Z 10000)%Qc).
  { unfold y, Qcle. rewrite !this_mult, this_div, !this_of_Z.
    change (inject_Z 0) with 0%Q. change (inject_Z 100) with 100%Q.
    change (inject_Z 10000) with 10000%Q.
    assert (Ht : (0 < inject_Z total)%Q)
      by (change 0%Q with (inject_Z 0); rewrite <- Zlt_Qlt; lia).
    assert (Hx0 : (0 <= inject_Z x)%Q)
      by (change 0%Q with (inject_Z 0); rewrite <- Zle_Qle; lia).
    assert (Hx1 : (inject_Z x <= inject_Z total)%Q) by (rewrite <- Zle_Qle; lia).
    assert (Hq0 : (0 <= inject_Z x / inject_Z total)%Q)
      by (apply Qle_shift_div_l; [exact Ht|lra]).
    assert (Hq1 : (inject_Z x / inject_Z total <= 1)%Q)
      by (apply Qle_shift_div_r; [exact Ht|lra]).
    set (q := (inject_Z x / inject_Z total)%Q) in *. split; lra. }
  destruct Hy as [Hy0 Hy1].
  pose proof (round_half_even_bounds y 0 10000 Hy0 Hy1) as Hround.
  destruct (Qc_of_Z_div_100 _ Hround) as [Hlow Hhigh].
  split; [exact Hlow|]. split; [exact Hhigh|]. split.
  - intros ->. assert (Hzero : y = Qc_of_Z 0).
    { unfold y. rewrite Z2Qc_inj_0. unfold Qcdiv. ring. }
    rewrite Hzero, round_half_even_of_Z. apply Qc_is_canon. reflexivity.
  - intros ->. assert (Hall : y = Qc_of_Z 10000).
    { unfold y. apply Qc_is_canon. rewrite !this_mult, this_div, !this_of_Z.
      change (inject_Z 100) with 100%Q. change (inject_Z 10000) with 10000%Q.
      assert (Ht : (0 < inject_Z total)%Q)
        by (change 0%Q with (inject_Z 0); rewrite <- Zlt_Qlt; lia).
      field. lra. }
    rewrite Hall, round_half_even_of_Z. apply Qc_is_canon. reflexivity.
Qed.

End RoundingFacts.

(** X9: for a collection that is not empty, each accessibility entry holds
    the number of Stops that pass its test, which is at most the total,
    and its percentage entry holds that share of the total as a
    percentage, to within one hundredth: a value between 0 and 100 that is
    0 when no Stop passes and 100 when all do. *)
Theorem calculate_metrics_percentages (stops : list TransportStop) :
  stops <> [] ->
  exists m,
    calculate_metrics stops = Return m
    /\ forall count_key pct_key test,
         (count_key, pct_key, test) ∈ accessibility_fields ->
         exists p,
           accessibility m !! count_key = Some (Qc_of_Z (count_if test stops))
           /\ 0 <= count_if test stops <= total_stops m
           /\ accessibility m !! pct_key = Some p
           /\ (Qc_of_Z (count_if test stops) / Qc_of_Z (total_stops m) * Qc_of_Z 100
               - Q2Qc (1 # 100) < p)%Qc
           /\ (p < Qc_of_Z (count_if test stops) / Qc_of_Z (total_stops m) * Qc_of_Z 100
                   + Q2Qc (1 # 100))%Qc
           /\ (0 ≤ p)%Qc /\ (p ≤ Qc_of_Z 100)%Qc
           /\ (count_if test stops = 0 -> p = Qc_of_Z 0)
           /\ (count_if test stops = total_stops m -> p = Qc_of_Z 100).
Proof.
  intros Hne. rewrite (calculate_metrics_nonempty stops Hne).
  eexists. split; [reflexivity|]. cbn [total_stops accessibility].
  assert (Hlen : 0 < len stops).
  { destruct stops; [congruence|]. unfold len. simpl. lia. }
  intros count_key pct_key test Hfield.
  exists (pct_value (count_if test stops) (len stops)).
  pose proof (count_if_range test stops) as Hrange.
  destruct (pct_value_range _ _ Hrange Hlen) as (H0 & H100 & Hnone & Hall).
  assert (Hlookup :
    foldr
      (fun field (acc : gmap string Qc) =>
         let '(count_key, pct_key, test) := field in
         <[count_key := Qc_of_Z (count_if test stops)]>
         (<[pct_key := pct_value (count_if test stops) (len stops)]> acc))
      ∅ accessibility_fields !! count_key = Some (Qc_of_Z (count_if test stops))
    /\ foldr
      (fun field (acc : gmap string Qc) =>
         let '(count_key, pct_key, test) := field in
         <[count_key := Qc_of_Z (count_if test stops)]>
         (<[pct_key := pct_value (count_if test stops) (len stops)]> acc))
      ∅ accessibility_fields !! pct_key
      = Some (pct_value (count_if test stops) (len stops))).
  { unfold accessibility_fields in *. cbn [foldr].
    repeat (apply elem_of_cons in Hfield as [Hfield|Hfield];
            [inversion Hfield; subst; clear Hfield;
             split;
             repeat (rewrite lookup_insert_ne by discriminate);
             apply lookup_insert_eq|]).
    inversion Hfield. }
  destruct Hlookup as [Hcount Hpct].
  split; [exact Hcount|]. split; [exact Hrange|]. split; [exact Hpct|].
  destruct (round2_near
              (Qc_of_Z (count_if test stops) / Qc_of_Z (len stops) * Qc_of_Z 100)%Qc)
    as [Hnear_low Hnear_high].
  split; [exact Hnear_low|]. split; [exact Hnear_high|].
  repeat split; assumption.
Qed.

Lemma calculate_metrics_percentages_witness :
  exists m,
    calculate_metrics example_stops = Return m
    /\ forall count_key pct_key test,
         (count_key, pct_key, test) ∈ accessibility_fields ->
         exists p,
           accessibility m !! count_key = Some (Qc_of_Z (count_if test example_stops))
           /\ 0 <= count_if test example_stops <= total_stops m
           /\ accessibility m !! pct_key = Some p
           /\ (Qc_of_Z (count_if test example_stops) / Qc_of_Z (total_stops m) * Qc_of_Z 100
               - Q2Qc (1 # 100) < p)%Qc
           /\ (p < Qc_of_Z (count_if test example_stops) / Qc_of_Z (total_stops m) * Qc_of_Z 100
                   + Q2Qc (1 # 100))%Qc
           /\ (0 ≤ p)%Qc /\ (p ≤ Qc_of_Z 100)%Qc
           /\ (count_if test example_stops = 0 -> p = Qc_of_Z 0)
           /\ (count_if test example_stops = total_stops m -> p = Qc_of_Z 100).
Proof.
  apply (calculate_metrics_percentages example_stops). discriminate.
Defined.

(** ** The statistics, further *)

Section RateFacts.

(** A part of a positive whole is a share between 0 and 1. *)
Lemma share_range (part whole : Z) :
  0 <= part <= whole -> 0 < whole ->
  (0 ≤ Qc_of_Z part / Qc_of_Z whole)%Qc /\ (Qc_of_Z part / Qc_of_Z whole ≤ 1)%Qc.
Proof.
  intros Hpart Hwhole. unfold Qcle. rewrite this_div, !this_of_Z.
  change (this 0%Qc) with 0%Q. change (this 1%Qc) with 1%Q.
  assert (Hw : (0 < inject_Z whole)%Q)
    by (change 0%Q with (inject_Z 0); rewrite <- Zlt_Qlt; lia).
  assert (Hp0 : (0 <= inject_Z part)%Q)
    by (change 0%Q with (inject_Z 0); rewrite <- Zle_Qle; lia).
  assert (Hp1 : (inject_Z part <= inject_Z whole)%Q) by (rewrite <- Zle_Qle; lia).
  split; [apply Qle_shift_div_l|apply Qle_shift_div_r]; (exact Hw || lra).
Qed.

Lemma share_all (whole : Z) : 0 < whole -> (Qc_of_Z whole / Qc_of_Z whole)%Qc = 1%Qc.
Proof.
  intros Hwhole. apply Qcmult_inv_r. intros Hzero.
  rewrite <- Z2Qc_inj_0 in Hzero. apply Z2Qc_inj in Hzero. lia.
Qed.

End RateFacts.

(** X10: in every reachable counter state the success rate is a share
    between 0 and 1; it is 1 when Stops were accepted and none rejected,
    and 0 when none was accepted; and the statistics carry the counters
    unchanged. *)
Theorem get_statistics_rate_range (st : Stats) :
  reachable st ->
  exists s,
    get_statistics st = Return s
    /\ stats s = st
    /\ (0 ≤ success_rate s)%Qc /\ (success_rate s ≤ 1)%Qc
    /\ (stops_failed st = 0 -> 0 < stops_processed st -> success_rate s = 1%Qc)
    /\ (stops_processed st = 0 -> success_rate s = 0%Qc).
Proof.
  intros Hreach. apply reachable_counters_nonneg in Hreach as [Hp Hf].
  unfold get_statistics, int_truediv.
  destruct (stops_processed st + stops_failed st >? 0) eqn:Hsum.
  - destruct (decide (stops_processed st + stops_failed st = 0)); [lia|].
    cbn [bind]. eexists. split; [reflexivity|]. cbn [stats success_rate].
    split; [reflexivity|].
    destruct (share_range (stops_processed st) (stops_processed st + stops_failed st))
      as [H0 H1]; [lia|lia|].
    split; [exact H0|]. split; [exact H1|]. split.
    + intros Hnone Hsome. rewrite Hnone, Z.add_0_r. apply share_all, Hsome.
    + intros ->. rewrite Z2Qc_inj_0. unfold Qcdiv. ring.
  - cbn [bind]. eexists. split; [reflexivity|]. cbn [stats success_rate].
    rewrite Z2Qc_inj_0. split; [reflexivity|]. split; [discriminate|].
    split; [discriminate|]. split; [lia|reflexivity].
Qed.

Lemma get_statistics_rate_range_witness :
  let st :=
    snd (fst (fetch_transport_stops
                (fun _ _ _ _ => JsonObject [bus_stop_node; way_element])
                initial_stats (Qc_of_Z 0) (Qc_of_Z 0) 2000)) in
  exists s,
    get_statistics st = Return s
    /\ stats s = st
    /\ (0 ≤ success_rate s)%Qc /\ (success_rate s ≤ 1)%Qc
    /\ (stops_failed st = 0 -> 0 < stops_processed st -> success_rate s = 1%Qc)
    /\ (stops_processed st = 0 -> success_rate s = 0%Qc).
Proof.
  apply (get_statistics_rate_range
           (snd (fst (fetch_transport_stops
                        (fun _ _ _ _ => JsonObject [bus_stop_node; way_element])
                        initial_stats (Qc_of_Z 0) (Qc_of_Z 0) 2000)))).
  apply reachable_fetch, reachable_init.
Defined.

(** X11: on a fresh pipeline, after a fetch whose answering attempt brings
    at least one element, all with their geometry, the success rate is the
    number of Stops returned divided by the number of elements received. *)
Theorem fetch_then_get_statistics
    (net : Qc -> Qc -> Z -> nat -> Response)
    (latitude longitude : Qc) (radius : Z) (i : nat) (elements : list Element) :
  (i < 3)%nat ->
  (forall j, (j < i)%nat ->
     retryable (try_body (net latitude longitude radius j)
                  (incr_api_calls initial_stats)) = true) ->
  net latitude longitude radius i = JsonObject elements ->
  Forall has_geometry elements ->
  elements <> [] ->
  exists stops st,
    fetch_transport_stops net initial_stats latitude longitude radius
    = (Return stops, st, attempts_trace i)
    /\ get_statistics st
       = Return {| stats := st;
                   success_rate := (Qc_of_Z (len stops) / Qc_of_Z (len elements))%Qc |}.
Proof.
  intros Hi Hbefore Hresp Hgeo Hne.
  assert (Hout : try_body (net latitude longitude radius i) (incr_api_calls initial_stats)
                 = (Return (accepted elements),
                    {| stops_processed := 0 + len (accepted elements);
                       stops_failed := 0 + (len elements - len (accepted elements));
                       api_calls := 0 + 1;
                       errors := [] |})).
  { rewrite Hresp. simpl. rewrite (parse_elements_accepted elements [] _ Hgeo). reflexivity. }
  eexists _, _. split.
  - rewrite (fetch_ends_at net initial_stats latitude longitude radius i Hi Hbefore).
    + rewrite Hout. reflexivity.
    + unfold retryable. rewrite Hout. reflexivity.
  - unfold get_statistics, int_truediv. cbn [stops_processed stops_failed].
    assert (Hlen : 0 < len elements).
    { destruct elements; [congruence|]. unfold len. simpl. lia. }
    replace (0 + len (accepted elements) + (0 + (len elements - len (accepted elements))))
      with (len elements) by lia.
    replace (len elements >? 0) with true by lia.
    destruct (decide (len elements = 0)); [lia|]. reflexivity.
Qed.

Lemma fetch_then_get_statistics_witness :
  exists stops st,
    fetch_transport_stops
      (fun _ _ _ _ => JsonObject [bus_stop_node; unclassified_node])
      initial_stats (Qc_of_Z 0) (Qc_of_Z 0) 2000
    = (Return stops, st, attempts_trace 0)
    /\ get_statistics st
       = Return {| stats := st;
                   success_rate :=
                     (Qc_of_Z (len stops)
                      / Qc_of_Z (len [bus_stop_node; unclassified_node]))%Qc |}.
Proof.
  apply (fetch_then_get_statistics
           (fun _ _ _ _ => JsonObject [bus_stop_node; unclassified_node])
           (Qc_of_Z 0) (Qc_of_Z 0) 2000 0 [bus_stop_node; unclassified_node]).
  - lia.
  - intros j Hj. lia.
  - reflexivity.
  - repeat constructor; simpl; eauto.
  - discriminate.
Defined.

(** ** Route labels *)

Section RouteNames.

Lemma isdigit_nonempty (s : string) : PyStr.isdigit s = true -> s <> EmptyString.
Proof. destruct s; [discriminate|]. intros _. discriminate. Qed.

Lemma digit_not_space (c : ascii) :
  PyStr.isdigit_ascii c = true -> PyStr.isspace c = false.
Proof.
  unfold PyStr.isdigit_ascii, PyStr.isspace. intros Hd.
  apply andb_prop in Hd as [Hlo Hhi].
  apply Nat.leb_le in Hlo. apply Nat.leb_le in Hhi.
  apply orb_false_intro; apply andb_false_intro2; apply Nat.leb_gt; lia.
Qed.

Lemma rstrip_digits (s : string) :
  PyStr.all_digits s = true -> PyStr.rstrip s = s.
Proof.
  induction s as [|c s IH]; [reflexivity|]. simpl. intros Hd.
  apply andb_prop in Hd as [Hc Hs]. rewrite (IH Hs).
  destruct s; [rewrite (digit_not_space c Hc)|]; reflexivity.
Qed.

Lemma rstrip_cons (c : ascii) (s : string) :
  PyStr.rstrip s = s -> s <> EmptyString -> PyStr.rstrip (String c s) = String c s.
Proof. intros Hs Hne. simpl. rewrite Hs. destruct s; [congruence|reflexivity]. Qed.

(** A label "Line n" is left as it is by [strip] and is not a number. *)
Lemma line_label_fixed (digits : string) :
  PyStr.isdigit digits = true ->
  PyStr.strip (String.append "Line " digits) = String.append "Line " digits
  /\ PyStr.isdigit (String.append "Line " digits) = false.
Proof.
  intros Hd. split; [|reflexivity].
  pose proof (isdigit_nonempty digits Hd) as Hne.
  unfold PyStr.isdigit in Hd. apply andb_prop in Hd as [_ Hd].
  unfold PyStr.strip. cbn [String.append PyStr.lstrip]. 
  change (PyStr.isspace "L") with false. cbv iota.
  repeat (apply rstrip_cons; [|discriminate]).
  apply rstrip_cons; [apply rstrip_digits, Hd|exact Hne].
Qed.

(** A trimmed string that is not empty and is not a number is its own
    label. *)
Lemma extract_route_name_fixed (w : string) :
  PyStr.strip w = w -> w <> EmptyString -> PyStr.isdigit w = false ->
  Dashboard.extract_route_name w = w.
Proof.
  intros Hstrip Hne Hd. unfold Dashboard.extract_route_name.
  destruct w as [|c w']; [congruence|]. cbn [PyStr.truthy negb].
  rewrite Hstrip, Hd. reflexivity.
Qed.

End RouteNames.

(** X12: the label of a route identifier is empty only for an identifier
    that is not empty and holds nothing but whitespace: the empty
    identifier gets "Unknown", a blank one gets the empty label. *)
Theorem extract_route_name_blank (route_str : string) :
  Dashboard.extract_route_name route_str = EmptyString
  <-> route_str <> EmptyString /\ PyStr.strip route_str = EmptyString.
Proof.
  unfold Dashboard.extract_route_name.
  destruct route_str as [|c s]; [simpl; split; [discriminate|intros [H _]; congruence]|].
  cbn [PyStr.truthy negb]. 
  destruct (PyStr.isdigit (PyStr.strip (String c s))) eqn:Hd.
  - split; [discriminate|]. intros [_ Hblank]. rewrite Hblank in Hd. discriminate.
  - split; [intros H; split; [discriminate|exact H]|intros [_ H]; exact H].
Qed.

(** X13: labelling a label changes nothing, for every identifier that is
    empty or holds something besides whitespace. *)
Theorem extract_route_name_idempotent (route_str : string) :
  route_str = EmptyString \/ PyStr.strip route_str <> EmptyString ->
  Dashboard.extract_route_name (Dashboard.extract_route_name route_str)
  = Dashboard.extract_route_name route_str.
Proof.
  intros [->|Hne]; [reflexivity|].
  unfold Dashboard.extract_route_name at 2 3.
  destruct route_str as [|c s]; [reflexivity|]. cbn [PyStr.truthy negb].
  set (w := PyStr.strip (String c s)) in *.
  destruct (PyStr.isdigit w) eqn:Hd.
  - destruct (line_label_fixed w Hd) as [Hstrip Hnum].
    unfold Dashboard.extract_route_name. cbn [String.append PyStr.truthy negb].
    change (String "L" (String.append "ine " w)) with (String.append "Line " w).
    rewrite Hstrip, Hnum. reflexivity.
  - apply extract_route_name_fixed; [apply strip_idemp|exact Hne|exact Hd].
Qed.

Lemma extract_route_name_idempotent_witness :
  Dashboard.extract_route_name (Dashboard.extract_route_name " 107 ")
  = Dashboard.extract_route_name " 107 ".
Proof.
  apply (extract_route_name_idempotent " 107 "). right. vm_compute. discriminate.
Defined.

(** X14: the later version of the labelling never raises, and it gives the
    label of the current version for every identifier whose trimmed form
    does not contain "ref:" in any letter case. *)
Theorem extract_route_name_versions (route_str : string) :
  exists label,
    DashboardV5.extract_route_name route_str = Return label
    /\ (PyStr.contains "ref:" (PyStr.lower (PyStr.strip route_str)) = false ->
        label = Dashboard.extract_route_name route_str).
Proof.
  unfold DashboardV5.extract_route_name, Dashboard.extract_route_name.
  destruct (negb (PyStr.truthy route_str)); [eexists; split; reflexivity|].
  destruct (PyStr.isdigit (PyStr.strip route_str)); [eexists; split; reflexivity|].
  destruct (PyStr.contains "ref:" (PyStr.lower (PyStr.strip route_str)));
    [|eexists; split; reflexivity].
  destruct (len (PyStr.split ":" (PyStr.strip route_str)) >? 1) eqn:Hlen;
    [|eexists; split; [reflexivity|discriminate]].
  destruct (py_index_lookup (PyStr.split ":" (PyStr.strip route_str)) 1)
    as (part & _ & ->); [lia|].
  eexists; split; [reflexivity|discriminate].
Qed.

(** ** The simulator, further *)

Section Periods.

(** The floor is the one integer just below. *)
Lemma Qfloor_unique (x : Q) (f : Z) :
  (inject_Z f <= x)%Q -> (x < inject_Z f + 1)%Q -> Qfloor x = f.
Proof.
  intros Hl Hu. destruct (floor_bounds x) as [Hl' Hu'].
  assert (H1 : (inject_Z f < inject_Z (Qfloor x + 1))%Q)
    by (rewrite inject_Z_plus; change (inject_Z 1) with 1%Q; lra).
  assert (H2 : (inject_Z (Qfloor x) < inject_Z (f + 1))%Q)
    by (rewrite inject_Z_plus; change (inject_Z 1) with 1%Q; lra).
  rewrite <- Zlt_Qlt in H1, H2. lia.
Qed.

(** Adding whole multiples of the divisor leaves the remainder. *)
Lemma float_mod_shift (x y : Qc) (k : Z) :
  (0 < y)%Qc -> float_mod (x + Qc_of_Z k * y) y = float_mod x y.
Proof.
  unfold Qclt. change (this 0%Qc) with 0%Q. intros Hy.
  apply Qc_is_canon. rewrite !this_float_mod.
  assert (Hsum : (this (x + Qc_of_Z k * y)%Qc == this x + inject_Z k * this y)%Q)
    by (rewrite this_plus, this_mult, this_of_Z; reflexivity).
  assert (Hfloor : Qfloor (this (x + Qc_of_Z k * y)%Qc / this y)
                   = Qfloor (this x / this y) + k).
  { apply Qfloor_unique.
    - destruct (floor_bounds (this x / this y)) as [Hl _].
      rewrite inject_Z_plus.
      assert (Hdiv : (this (x + Qc_of_Z k * y)%Qc / this y
                      == this x / this y + inject_Z k)%Q)
        by (rewrite Hsum; field; lra).
      rewrite Hdiv. lra.
    - destruct (floor_bounds (this x / this y)) as [_ Hu].
      rewrite inject_Z_plus.
      assert (Hdiv : (this (x + Qc_of_Z k * y)%Qc / this y
                      == this x / this y + inject_Z k)%Q)
        by (rewrite Hsum; field; lra).
      rewrite Hdiv. lra. }
  rewrite Hfloor, Hsum, inject_Z_plus. ring.
Qed.

Lemma progress_period_60 (now : Qc) (v t : Z) :
  Dashboard.progress (now + Qc_of_Z 60) v t = Dashboard.progress now v t.
Proof.
  unfold Dashboard.progress.
  replace (now + Qc_of_Z 60)%Qc with (now + Qc_of_Z 1 * Qc_of_Z 60)%Qc
    by (rewrite Z2Qc_inj_1; ring).
  rewrite float_mod_shift by reflexivity. reflexivity.
Qed.

End Periods.

(** X15: in exact arithmetic the simulation repeats every 60 seconds: a
    minute later every vehicle is back where it was, with the same stops
    and status. *)
Theorem simulate_vehicle_position_period_60
    (now : Qc) (draw : Z) (route_points : list (Qc * Qc))
    (route_stops : list TransportStop) (vehicle_id total_vehicles : Z) :
  Dashboard.simulate_vehicle_position (now + Qc_of_Z 60) draw route_points
    route_stops vehicle_id total_vehicles
  = Dashboard.simulate_vehicle_position now draw route_points
      route_stops vehicle_id total_vehicles.
Proof.
  unfold Dashboard.simulate_vehicle_position. rewrite progress_period_60. reflexivity.
Qed.

Section SimulatorOutcome.

(** The local progress is the fractional part of the way along the path. *)
Lemma local_progress_range (p : Qc) (n : Z) :
  (0 ≤ p)%Qc -> (p < 1)%Qc -> 1 <= n ->
  let seg := Dashboard.current_segment p n in
  seg = Qfloor (p * Qc_of_Z n)%Qc
  /\ (0 ≤ Dashboard.local_progress p n seg)%Qc
  /\ (Dashboard.local_progress p n seg < 1)%Qc.
Proof.
  intros Hp0 Hp1 Hn seg.
  destruct (current_segment_range p n Hp0 Hn) as [_ Hseg]. fold seg in Hseg.
  destruct (floor_bounds (p * Qc_of_Z n)%Qc) as [Hl Hu].
  assert (Hn1 : (1 <= inject_Z n)%Q)
    by (change 1%Q with (inject_Z 1); rewrite <- Zle_Qle; lia).
  assert (Hlt : Qfloor (p * Qc_of_Z n)%Qc < n).
  { rewrite Zlt_Qlt. eapply Qle_lt_trans; [exact Hl|].
    unfold Qcle, Qclt in *. change (this 0%Qc) with 0%Q in *.
    change (this 1%Qc) with 1%Q in *. rewrite this_mult, this_of_Z. nra. }
  assert (Heq : seg = Qfloor (p * Qc_of_Z n)%Qc) by lia.
  split; [exact Heq|]. unfold Dashboard.local_progress. rewrite Heq.
  unfold Qcle, Qclt. rewrite this_minus, this_of_Z.
  change (this 0%Qc) with 0%Q. change (this 1%Qc) with 1%Q. split; lra.
Qed.

(** The snapshot returned on a path of at least 2 points with at least one
    Stop, field by field. *)
Lemma simulate_returns_any_stops now draw (pts : list (Qc * Qc))
    (stops : list TransportStop) v t p :
  Dashboard.progress now v t = Return p -> (0 ≤ p)%Qc ->
  2 <= len pts -> stops <> [] ->
  let n := Dashboard.total_segments pts in
  let seg := Dashboard.current_segment p n in
  let lp := Dashboard.local_progress p n seg in
  exists end_stop p1 p2,
    stops !! Z.to_nat (Z.min (seg + 1) (len stops - 1)) = Some end_stop
    /\ pts !! Z.to_nat seg = Some p1
    /\ pts !! Z.to_nat (seg + 1) = Some p2
    /\ Dashboard.simulate_vehicle_position now draw pts stops v t
       = Return (Some {|
           position := ((p1.1 + (p2.1 - p1.1) * lp)%Qc,
                        (p1.2 + (p2.2 - p1.2) * lp)%Qc);
           last_stop :=
             match stops !! Z.to_nat seg with
             | Some s => name s
             | None => "Unknown"
             end;
           current_stop :=
             if decide (lp < Q2Qc (1 # 10))%Qc
             then match stops !! Z.to_nat seg with
                  | Some s => name s
                  | None => "Unknown"
                  end
             else if decide (Q2Qc (9 # 10) < lp)%Qc then name end_stop
             else match stops !! Z.to_nat seg with
                  | Some s => name s
                  | None => "Unknown"
                  end;
           next_stop := name end_stop;
           status :=
             if decide (lp < Q2Qc (1 # 10))%Qc then "At Stop"
             else if decide (Q2Qc (9 # 10) < lp)%Qc then "Arriving"
             else "In Transit";
           eta :=
             if decide (lp < Q2Qc (1 # 10))%Qc then 0
             else if decide (Q2Qc (9 # 10) < lp)%Qc then 1
             else randint draw 2 8
         |}).
Proof.
  intros Hprog Hp Hlen Hstops n seg lp.
  assert (Hn : 1 <= n) by (unfold n, Dashboard.total_segments; lia).
  destruct (current_segment_range p n Hp Hn) as [Hseg _]. fold seg in Hseg.
  assert (Hlenn : len pts = n + 1) by (unfold n, Dashboard.total_segments; lia).
  assert (Hsome : 1 <= len stops).
  { destruct stops; [congruence|]. unfold len. simpl. lia. }
  set (next_idx := Z.min (seg + 1) (len stops - 1)).
  destruct (py_index_lookup stops next_idx) as (end_stop & Hs2 & Hi2); [lia|].
  destruct (py_index_lookup pts seg) as (p1 & Hp1 & Hj1); [lia|].
  destruct (py_index_lookup pts (seg + 1)) as (p2 & Hp2 & Hj2); [lia|].
  exists end_stop, p1, p2. repeat (split; [assumption|]).
  unfold Dashboard.simulate_vehicle_position.
  assert (Hguard : bool_decide (pts = []) || (len pts <? 2) = false).
  { apply orb_false_intro; [|lia]. apply bool_decide_eq_false. intros ->.
    unfold len in Hlen. simpl in Hlen. lia. }
  rewrite Hguard, Hprog. cbn [bind]. fold n. fold seg. fold lp. fold next_idx.
  replace (Z.min (seg + 1) (len pts - 1)) with (seg + 1) by lia.
  replace (next_idx <? len stops) with true by lia.
  rewrite Hi2, Hj1, Hj2.
  destruct (seg <? len stops) eqn:Hlast.
  - destruct (py_index_lookup stops seg) as (start_stop & Hs1 & Hi1); [lia|].
    rewrite Hi1, Hs1. cbn [bind].
    destruct (decide (lp < Q2Qc (1 # 10))%Qc); [reflexivity|].
    destruct (decide (Q2Qc (9 # 10) < lp)%Qc); reflexivity.
  - assert (Hnone : stops !! Z.to_nat seg = None).
    { apply lookup_ge_None_2. unfold len in *. lia. }
    rewrite Hnone. cbn [bind].
    destruct (decide (lp < Q2Qc (1 # 10))%Qc); [reflexivity|].
    destruct (decide (Q2Qc (9 # 10) < lp)%Qc); reflexivity.
Qed.

End SimulatorOutcome.

Section OnSegment.


End OnSegment.

(** X17: the outcomes of the simulator.  A path of fewer than 2 points gives
    absence before anything is divided or indexed; otherwise a vehicle
    count of zero raises [ZeroDivisionError]; otherwise an empty Stop
    sequence raises [IndexError]; otherwise a snapshot is returned whose
    next stop is the name of a Stop of the sequence (the placeholder
    "Terminal" is never used) and whose last stop is the name of a Stop of
    the sequence, or "Unknown" when the sequence is shorter than the number
    of segments. *)
Theorem simulate_vehicle_position_outcomes
    (now : Qc) (draw : Z) (route_points : list (Qc * Qc))
    (route_stops : list TransportStop) (vehicle_id total_vehicles : Z) :
  let outcome :=
    Dashboard.simulate_vehicle_position now draw route_points route_stops
      vehicle_id total_vehicles in
  (len route_points < 2 -> outcome = Return None)
  /\ (2 <= len route_points -> total_vehicles = 0 ->
      outcome = Raise ZeroDivisionError)
  /\ (2 <= len route_points -> total_vehicles <> 0 -> route_stops = [] ->
      outcome = Raise IndexError)
  /\ (2 <= len route_points -> total_vehicles <> 0 -> route_stops <> [] ->
      exists snap,
        outcome = Return (Some snap)
        /\ next_stop snap ∈ stop_names route_stops
        /\ (last_stop snap ∈ stop_names route_stops
            \/ (last_stop snap = "Unknown"
                /\ len route_stops < len route_points - 1))).
Proof.
  intros outcome. unfold outcome. clear outcome. split; [|split; [|split]].
  - intros Hshort. unfold Dashboard.simulate_vehicle_position.
    replace (len route_points <? 2) with true by lia. rewrite orb_true_r. reflexivity.
  - intros Hlen ->. unfold Dashboard.simulate_vehicle_position.
    assert (Hguard : bool_decide (route_points = []) || (len route_points <? 2) = false).
    { apply orb_false_intro; [|lia]. apply bool_decide_eq_false. intros ->.
      unfold len in Hlen. simpl in Hlen. lia. }
    rewrite Hguard. reflexivity.
  - intros Hlen Hveh ->. unfold Dashboard.simulate_vehicle_position.
    assert (Hguard : bool_decide (route_points = []) || (len route_points <? 2) = false).
    { apply orb_false_intro; [|lia]. apply bool_decide_eq_false. intros ->.
      unfold len in Hlen. simpl in Hlen. lia. }
    destruct (progress_returns now vehicle_id total_vehicles Hveh) as (p & Hprog & Hp0 & _).
    rewrite Hguard, Hprog. cbn [bind].
    assert (Hn : 1 <= Dashboard.total_segments route_points)
      by (unfold Dashboard.total_segments; lia).
    destruct (current_segment_range p _ Hp0 Hn) as [Hseg _].
    set (seg := Dashboard.current_segment p (Dashboard.total_segments route_points)) in *.
    change (len (@nil TransportStop)) with 0.
    replace (seg <? 0) with false by lia. cbn [bind].
    replace (Z.min (seg + 1) (0 - 1)) with (-1) by lia. reflexivity.
  - intros Hlen Hveh Hstops.
    destruct (progress_returns now vehicle_id total_vehicles Hveh) as (p & Hprog & Hp0 & _).
    destruct (simulate_returns_any_stops now draw route_points route_stops vehicle_id
                total_vehicles p Hprog Hp0 Hlen Hstops)
      as (end_stop & p1 & p2 & Hend & _ & _ & Hsim).
    eexists. split; [exact Hsim|]. cbn [next_stop last_stop]. split.
    + apply list_elem_of_fmap. exists end_stop. split; [reflexivity|].
      eapply list_elem_of_lookup_2, Hend.
    + assert (Hn : 1 <= Dashboard.total_segments route_points)
        by (unfold Dashboard.total_segments; lia).
      destruct (current_segment_range p _ Hp0 Hn) as [Hseg _].
      set (seg := Dashboard.current_segment p (Dashboard.total_segments route_points)) in *.
      destruct (route_stops !! Z.to_nat seg) as [start_stop|] eqn:Hstart.
      * left. apply list_elem_of_fmap. exists start_stop. split; [reflexivity|].
        eapply list_elem_of_lookup_2, Hstart.
      * right. split; [reflexivity|]. apply lookup_ge_None_1 in Hstart.
        unfold Dashboard.total_segments, len in *. lia.
Qed.

Lemma simulate_vehicle_position_outcomes_witness :
  exists snap,
    Dashboard.simulate_vehicle_position (Qc_of_Z 30) 4 (line_points 4)
      (line_stops 2) 1 2 = Return (Some snap)
    /\ next_stop snap ∈ stop_names (line_stops 2)
    /\ (last_stop snap ∈ stop_names (line_stops 2)
        \/ (last_stop snap = "Unknown"
            /\ len (line_stops 2) < len (line_points 4) - 1)).
Proof.
  apply (simulate_vehicle_position_outcomes (Qc_of_Z 30) 4 (line_points 4)
           (line_stops 2) 1 2).
  - unfold len. simpl. lia.
  - lia.
  - discriminate.
Defined.



(** ** Route grouping and the older dashboard *)

Section Grouping.

Lemma dict_get_defaultdict_append (d : list (string * list TransportStop))
    (route key : string) (stop : TransportStop) :
  dict_get (Dashboard.defaultdict_append d route stop) key
  = if String.eqb key route
    then Some (default [] (dict_get d route) ++ [stop])
    else dict_get d key.
Proof.
  induction d as [|[k v] d IH]; simpl.
  - rewrite String.eqb_sym. destruct (String.eqb key route); reflexivity.
  - destruct (String.eqb k route) eqn:Hk; simpl.
    + apply String.eqb_eq in Hk. subst k. rewrite (String.eqb_sym route key).
      destruct (String.eqb key route); reflexivity.
    + destruct (String.eqb k key) eqn:Hkey.
      * apply String.eqb_eq in Hkey. subst k. rewrite Hk. reflexivity.
      * exact IH.
Qed.

(** One Stop, entered under each of its routes. *)
Lemma dict_get_enter_stop (rs : list string) (d : list (string * list TransportStop))
    (key : string) (stop : TransportStop) :
  NoDup rs ->
  dict_get
    (fold_left (fun d route => Dashboard.defaultdict_append d route stop) rs d) key
  = if str_in key rs then Some (default [] (dict_get d key) ++ [stop])
    else dict_get d key.
Proof.
  intros Hnd. revert d. induction Hnd as [|r rs Hr _ IH]; intros d; [reflexivity|].
  cbn [fold_left]. rewrite IH, dict_get_defaultdict_append. unfold str_in. simpl.
  destruct (String.eqb key r) eqn:Hkey; [|reflexivity].
  apply String.eqb_eq in Hkey. subst key.
  destruct (existsb (String.eqb r) rs) eqn:Hin; [|reflexivity].
  exfalso. apply Hr, str_in_elem_of, Hin.
Qed.

Lemma dict_get_routes_fold (stops : list TransportStop)
    (d : list (string * list TransportStop)) (key : string) :
  Forall (fun s => NoDup (routes s)) stops ->
  dict_get
    (fold_left
       (fun routes_dict stop =>
          if bool_decide (routes stop = []) then routes_dict
          else fold_left
                 (fun routes_dict route =>
                    Dashboard.defaultdict_append routes_dict route stop)
                 (routes stop) routes_dict)
       stops d) key
  = match List.filter (fun s => str_in key (routes s)) stops with
    | [] => dict_get d key
    | m => Some (default [] (dict_get d key) ++ m)
    end.
Proof.
  intros Hnd. revert d. induction Hnd as [|stop stops Hstop _ IH]; intros d; [reflexivity|].
  cbn [fold_left List.filter]. rewrite IH. clear IH.
  destruct (bool_decide (routes stop = [])) eqn:Hempty.
  - apply bool_decide_eq_true in Hempty. rewrite Hempty. reflexivity.
  - rewrite (dict_get_enter_stop _ _ _ _ Hstop).
    destruct (str_in key (routes stop)); [|reflexivity]. simpl.
    destruct (List.filter _ stops); [reflexivity|]. rewrite <- app_assoc. reflexivity.
Qed.

End Grouping.

(** X19: for Stops whose route lists have no duplicate, as normalization
    builds them, the grouping keeps under each route identifier exactly the
    Stops that list it, in input order: the Stops that
    [generate_route_polyline] selects for that route; an identifier that no
    Stop lists is not a key. *)
Theorem routes_dict_groups (stops : list TransportStop) (route_name : string) :
  Forall (fun s => NoDup (routes s)) stops ->
  dict_get (Dashboard.routes_dict stops) route_name
  = match List.filter (fun s => str_in route_name (routes s)) stops with
    | [] => None
    | route_stops => Some route_stops
    end.
Proof.
  intros Hnd. unfold Dashboard.routes_dict. rewrite (dict_get_routes_fold _ _ _ Hnd).
  reflexivity.
Qed.

Lemma routes_dict_groups_witness :
  dict_get (Dashboard.routes_dict example_stops) "20"
  = match List.filter (fun s => str_in "20" (routes s)) example_stops with
    | [] => None
    | route_stops => Some route_stops
    end.
Proof.
  apply (routes_dict_groups example_stops "20").
  apply (bool_decide_unpack _). vm_compute. exact I.
Defined.

Section VersionFour.

Variable pow_half : Qc -> Qc.

Lemma order_loop_v4_agree (fuel : nat) (sorted_stops remaining : list TransportStop) :
  DashboardV4.order_loop pow_half fuel sorted_stops remaining
  = Dashboard.order_loop pow_half fuel sorted_stops remaining.
Proof.
  revert sorted_stops remaining.
  induction fuel as [|fuel IH]; intros sorted_stops remaining;
    destruct remaining as [|r rs]; [reflexivity|reflexivity|reflexivity|].
  cbn [Dashboard.order_loop DashboardV4.order_loop].
  destruct (py_index sorted_stops (-1)) as [last|e]; [|reflexivity].
  change (DashboardV4.distance_key pow_half last)
    with (Dashboard.distance_key pow_half last).
  destruct (py_min_by (Dashboard.distance_key pow_half last) (r :: rs))
    as [nearest|e]; [|reflexivity].
  destruct (list_remove nearest (r :: rs)) as [remaining|e]; [|reflexivity].
  apply IH.
Qed.

End VersionFour.

(** X20: the older [generate_route_polyline] returns the points that the
    current one returns, without the ordered Stops: absence, an exception
    and a reached bound are the same in both. *)
Theorem generate_route_polyline_v4_points
    (pow_half : Qc -> Qc) (fuel : nat) (stops : list TransportStop)
    (route_name : string) :
  DashboardV4.generate_route_polyline pow_half fuel stops route_name
  = match Dashboard.generate_route_polyline pow_half fuel stops route_name with
    | Some (Return (Some (points, _))) => Some (Return (Some points))
    | Some (Return None) => Some (Return None)
    | Some (Raise e) => Some (Raise e)
    | None => None
    end.
Proof.
  unfold DashboardV4.generate_route_polyline, Dashboard.generate_route_polyline.
  destruct (len _ <? 2); [reflexivity|].
  destruct (List.filter _ stops) as [|first remaining]; [reflexivity|].
  rewrite order_loop_v4_agree.
  destruct (Dashboard.order_loop pow_half fuel [first] remaining) as [[sorted|e]|];
    reflexivity.
Qed.

Section VersionFourPosition.

Lemma float_mod_1_floor (x : Qc) : float_mod x 1 = (x - Qc_of_Z (Qfloor x))%Qc.
Proof.
  apply Qc_is_canon. rewrite this_float_mod, this_minus, this_of_Z.
  change (this 1%Qc) with 1%Q.
  assert (Hdiv : (this x / 1 == this x)%Q) by field.
  rewrite (Qfloor_comp _ _ Hdiv). ring.
Qed.

Lemma progress_whole_minute (now : Qc) (v t : Z) :
  t <> 0 -> float_mod now (Qc_of_Z 60) = Qc_of_Z 0 ->
  Dashboard.progress now v t = Return (float_mod (Qc_of_Z v / Qc_of_Z t) 1).
Proof.
  intros Ht Hnow. unfold Dashboard.progress, int_truediv.
  destruct (decide (t = 0)); [contradiction|]. cbn [bind]. rewrite Hnow.
  do 2 f_equal. rewrite Z2Qc_inj_0. unfold Qcdiv. ring.
Qed.

End VersionFourPosition.

(** X21: at a clock value that is a whole number of minutes the current
    simulator puts a vehicle where the older one, which reads no clock,
    puts it. *)
Theorem simulate_vehicle_position_v4_position
    (now : Qc) (draw : Z) (route_points : list (Qc * Qc))
    (route_stops : list TransportStop) (vehicle_id total_vehicles : Z) :
  2 <= len route_points ->
  total_vehicles <> 0 ->
  route_stops <> [] ->
  float_mod now (Qc_of_Z 60) = Qc_of_Z 0 ->
  exists snap,
    Dashboard.simulate_vehicle_position now draw route_points route_stops
      vehicle_id total_vehicles = Return (Some snap)
    /\ DashboardV4.simulate_vehicle_position route_points vehicle_id total_vehicles
       = Return (Some (position snap)).
Proof.
  intros Hlen Hveh Hstops Hnow.
  pose proof (progress_whole_minute now vehicle_id total_vehicles Hveh Hnow) as Hprog.
  set (p := float_mod (Qc_of_Z vehicle_id / Qc_of_Z total_vehicles) 1) in *.
  destruct (float_mod_range (Qc_of_Z vehicle_id / Qc_of_Z total_vehicles) 1)
    as [Hp0 Hp1]; [reflexivity|]. fold p in Hp0, Hp1.
  destruct (simulate_returns_any_stops now draw route_points route_stops vehicle_id
              total_vehicles p Hprog Hp0 Hlen Hstops)
    as (end_stop & p1 & p2 & _ & Hpt1 & Hpt2 & Hsim).
  assert (Hn : 1 <= Dashboard.total_segments route_points)
    by (unfold Dashboard.total_segments; lia).
  destruct (current_segment_range p _ Hp0 Hn) as [Hseg _].
  destruct (local_progress_range p _ Hp0 Hp1 Hn) as (Hfloor & _ & _).
  set (n := Dashboard.total_segments route_points) in *.
  set (seg := Dashboard.current_segment p n) in *.
  eexists. split; [exact Hsim|]. cbn [position].
  unfold DashboardV4.simulate_vehicle_position.
  assert (Hguard : bool_decide (route_points = []) || (len route_points <? 2) = false).
  { apply orb_false_intro; [|lia]. apply bool_decide_eq_false. intros ->.
    unfold len in Hlen. simpl in Hlen. lia. }
  rewrite Hguard. unfold int_truediv.
  destruct (decide (total_vehicles = 0)); [contradiction|]. cbn [bind]. fold p.
  change (len route_points - 1) with n.
  assert (Hint : py_int (p * Qc_of_Z n)%Qc = seg).
  { rewrite Hfloor. apply py_int_nonneg.
    apply Qcmult_nonneg_nonneg; [exact Hp0|]. apply Qc_of_Z_nonneg. lia. }
  rewrite Hint. replace (seg >=? n) with false by lia.
  assert (Hlenn : len route_points = n + 1) by (unfold n, Dashboard.total_segments; lia).
  destruct (py_index_lookup route_points seg) as (q1 & Hq1 & ->); [lia|].
  destruct (py_index_lookup route_points (seg + 1)) as (q2 & Hq2 & ->); [lia|].
  cbn [bind]. rewrite Hpt1 in Hq1. rewrite Hpt2 in Hq2.
  inversion Hq1; subst q1. inversion Hq2; subst q2.
  rewrite float_mod_1_floor, <- Hfloor. reflexivity.
Qed.

Lemma simulate_vehicle_position_v4_position_witness :
  exists snap,
    Dashboard.simulate_vehicle_position (Qc_of_Z 120) 4 (line_points 3)
      (line_stops 3) 1 3 = Return (Some snap)
    /\ DashboardV4.simulate_vehicle_position (line_points 3) 1 3
       = Return (Some (position snap)).
Proof.
  apply (simulate_vehicle_position_v4_position (Qc_of_Z 120) 4 (line_points 3)
           (line_stops 3) 1 3).
  - unfold len. simpl. lia.
  - lia.
  - discriminate.
  - apply Qc_is_canon. vm_compute. reflexivity.
Defined.

(** * Worked examples *)

(** The end-to-end scenario: of six raw elements, three bus stops with
    [lines="10;20"], two stations and one element with no recognised key,
    five become Stops and one is rejected and tallied. *)
Example end_to_end_scenario :
  let bus := {| el_type := Some "node"; el_id := Some 1;
                el_lat := Some (Qc_of_Z 1); el_lon := Some (Qc_of_Z 2);
                el_tags := Some [("highway", "bus_stop"); ("lines", "10;20")] |} in
  let station := {| el_type := Some "node"; el_id := Some 2;
                    el_lat := Some (Qc_of_Z 3); el_lon := Some (Qc_of_Z 4);
                    el_tags := Some [("railway", "station")] |} in
  let other := {| el_type := Some "node"; el_id := Some 3;
                  el_lat := Some (Qc_of_Z 5); el_lon := Some (Qc_of_Z 6);
                  el_tags := Some [("shop", "bakery")] |} in
  exists stops st m,
    fetch_transport_stops
      (fun _ _ _ _ => JsonObject [bus; station; bus; other; station; bus])
      initial_stats (Qc_of_Z 0) (Qc_of_Z 0) 2000
    = (Return stops, st, [Post 0])
    /\ length stops = 5%nat
    /\ stops_processed st = 5 /\ stops_failed st = 1
    /\ List.map routes (List.filter (fun s => bool_decide (transport_type s = BUS)) stops)
       = [["10"; "20"]; ["10"; "20"]; ["10"; "20"]]
    /\ calculate_metrics stops = Return m
    /\ total_stops m = 5
    /\ by_type m !! "bus" = Some 3 /\ by_type m !! "subway" = Some 2.
Proof.
  cbv zeta. eexists _, _, _. split; [reflexivity|].
  repeat (split; [reflexivity|]). split; reflexivity.
Qed.

(** Line "10" of the example stops is ordered A, C, D, B. *)
Example example_route_order :
  match Dashboard.generate_route_polyline sqrt_binary64 3 example_stops "10" with
  | Some (Return (Some (_, sorted_stops))) => List.map name sorted_stops
  | _ => []
  end = ["A"; "C"; "D"; "B"].
Proof. vm_compute. reflexivity. Qed.

(** The square root of 2 as a binary64 value, 1.4142135623730951. *)
Example sqrt_binary64_of_2 :
  sqrt_binary64 (Qc_of_Z 2) = Q2Qc (6369051672525773 # 2 ^ 52).
Proof. apply Qc_is_canon. vm_compute. reflexivity. Qed.
